(** * The carbon-credit dashboard views: [Dashboard] and [RequestsReceived]

    A shallow embedding of the two React components.  Component state is a
    record, a handler is a computation in a small state-and-effect monad
    whose log records every [api.get]/[api.post]/[api.put]/[api.delete],
    [alert] and [confirm], and what the handler awaits (the backend's
    answers, the user's answer to [confirm], the host clock) is an argument
    of the handler.  Numbers are rationals with arithmetic rounded to
    binary64; dates are time values in milliseconds. *)

From Stdlib Require Import ZArith QArith Qabs Qround Qpower List String Ascii.
From Stdlib Require Import Bool Lia Lqa.
From Stdlib Require Import DecimalString SpecFloat.
Import ListNotations.

Local Open Scope Z_scope.

(** ** JavaScript numbers and dates *)

Module JS.

(** A Number that is not an infinity: a rational, or [None] for NaN. *)
Definition Number : Type := option Q.

Definition NaN : Number := None.

(** An integer that is a double, as a Number. *)
Definition num (z : Z) : Number := Some (inject_Z z).

(** *** Rounding to binary64

    Arithmetic on Numbers rounds its exact result to the nearest double,
    ties to even: to 53 significant bits, on a grid no finer than 2^-1074.
    Beyond the largest double, where binary64 gives an infinity, [round]
    goes on rounding to 53 bits; the numbers of this program are time
    values, their differences and quotients, and never get there. *)

(** The exponent of the leading bit of a positive rational:
    [2^(Qlog2 q) <= q < 2^(Qlog2 q + 1)]. *)
Definition Qlog2 (q : Q) : Z :=
  let n := Qnum q in
  let d := Z.pos (Qden q) in
  let e := Z.log2 n - Z.log2 d in
  if n * 2 ^ Z.log2 d <? d * 2 ^ Z.log2 n then e - 1 else e.

(** The nearest integer, ties to even. *)
Definition Qrne (q : Q) : Z :=
  let f := Qfloor q in
  match (q - inject_Z f ?= 1 # 2)%Q with
  | Lt => f
  | Gt => f + 1
  | Eq => if Z.even f then f else f + 1
  end.

(** The exponent of the last place of the doubles around a positive
    rational. *)
Definition ulp_exponent (q : Q) : Z := Z.max (Qlog2 q - 52) (-1074).

(** The nearest multiple of [2^u]. *)
Definition round_to (u : Z) (q : Q) : Q :=
  (inject_Z (Qrne (q / 2 ^ u)) * 2 ^ u)%Q.

Definition round_pos (q : Q) : Q := round_to (ulp_exponent q) q.

Definition round (q : Q) : Q :=
  match (q ?= 0)%Q with
  | Eq => 0%Q
  | Gt => round_pos q
  | Lt => (- round_pos (- q))%Q
  end.

(** *** Comparison, dates *)

Definition Qlt_bool (x y : Q) : bool := negb (Qle_bool y x).

(** [a < b] and [a > b] on Numbers: false as soon as one side is NaN. *)
Definition lt (a b : Number) : bool :=
  match a, b with
  | Some x, Some y => Qlt_bool x y
  | _, _ => false
  end.

Definition gt (a b : Number) : bool := lt b a.

(** ToIntegerOrInfinity on a finite number: truncation towards zero. *)
Definition Qtrunc (q : Q) : Z := Z.quot (Qnum q) (Zpos (Qden q)).

(** A Date holds a time value: an integral number of milliseconds since the
    epoch of magnitude at most 8.64e15, or NaN (an Invalid Date). *)
Definition Date : Type := option Z.

Definition maxTime : Z := 8640000000000000.

Definition TimeClip (x : Number) : Date :=
  match x with
  | None => None
  | Some q =>
      if Qle_bool (Qabs q) (inject_Z maxTime) then Some (Qtrunc q) else None
  end.

Definition getTime (d : Date) : Number := option_map inject_Z d.

(** [new Date()], when the host clock reads [clock] milliseconds. *)
Definition new_Date_now (clock : Z) : Date := TimeClip (num clock).

(** [new Date(x)] for a Number [x]. *)
Definition new_Date_number (x : Number) : Date := TimeClip x.

(** [d1 < d2] on Dates compares their time values. *)
Definition Date_lt (d1 d2 : Date) : bool := lt (getTime d1) (getTime d2).

(** [a - b]. *)
Definition sub (a b : Number) : Number :=
  match a, b with
  | Some x, Some y => Some (round (x - y))
  | _, _ => None
  end.

(** [a / b].  A quotient by zero is an infinity or NaN; Number has no
    infinity, and the one divisor of this program is a positive constant. *)
Definition div (a b : Number) : Number :=
  match a, b with
  | Some x, Some y => if Qeq_bool y 0 then None else Some (round (x / y))
  | _, _ => None
  end.

(** [Date.parse] is the engine's: a string gives a time value or NaN. *)
Section Parsing.

Variable Date_parse : string -> Number.

(** [new Date(s)] for a string [s]. *)
Definition new_Date_string (s : string) : Date := TimeClip (Date_parse s).

End Parsing.

(** Number::toString on an integer (below 1e21, where JavaScript still
    prints plain decimal digits). *)
Definition Number_toString (z : Z) : string :=
  NilZero.string_of_int (Z.to_int z).

(** Strings are truthy exactly when they are not empty. *)
Definition truthy (s : string) : bool :=
  match s with
  | EmptyString => false
  | String _ _ => true
  end.

(** [v || fallback] where [v] is a string or [undefined]. *)
Definition or_else (v : option string) (fallback : string) : string :=
  match v with
  | Some s => if truthy s then s else fallback
  | None => fallback
  end.

End JS.

(** ** The axios client, the browser dialogs and the handler monad *)

Module Http.
Import JS.

Inductive Method : Type := GET | POST | PUT | DELETE.

(** The string literal type ["ACCEPT" | "REJECT"]. *)
Inductive Action : Type := ACCEPT | REJECT.

Definition Action_string (a : Action) : string :=
  match a with
  | ACCEPT => "ACCEPT"
  | REJECT => "REJECT"
  end.

(** String.prototype.toLowerCase on ASCII letters. *)
Definition lower_ascii (c : ascii) : ascii :=
  let n := nat_of_ascii c in
  if ((65 <=? n) && (n <=? 90))%nat then ascii_of_nat (n + 32) else c.

Fixpoint toLowerCase (s : string) : string :=
  match s with
  | EmptyString => EmptyString
  | String c s' => String (lower_ascii c) (toLowerCase s')
  end.

(** The JSON bodies the two components send. *)
Inductive Body : Type :=
| NoBody
| ProcessBody (action : Action)
| BulkProcessBody (requestIds : list Z) (action : Action)
| RequestBody (recipientId : Number) (type : string)
              (price quantity : Number) (reason : string).

Record HttpCall : Type := {
  method : Method;
  url : string;
  body : Body
}.

Definition api_get (path : string) : HttpCall :=
  {| method := GET; url := path; body := NoBody |}.
Definition api_post (path : string) (b : Body) : HttpCall :=
  {| method := POST; url := path; body := b |}.
Definition api_put (path : string) (b : Body) : HttpCall :=
  {| method := PUT; url := path; body := b |}.
Definition api_delete (path : string) : HttpCall :=
  {| method := DELETE; url := path; body := NoBody |}.

(** What a handler does to the outside world, in order: a call through the
    axios client, a browser dialog, leaving the page by assigning
    [window.location.href], or the [logout] of the authentication context. *)
Inductive Effect : Type :=
| Http (c : HttpCall)
| Alert (text : string)
| Confirm (text : string)
| Navigate (href : string)
| Logout.

(** The value a rejected call throws; every level may be missing. *)
Record ErrorData : Type := { message : option string }.
Record ErrorResponse : Type := { data : option ErrorData }.
Record AxiosError : Type := { response : option ErrorResponse }.

(** [err.response?.data?.message]. *)
Definition response_data_message (err : AxiosError) : option string :=
  match response err with
  | None => None
  | Some r =>
      match data r with
      | None => None
      | Some d => message d
      end
  end.

(** An awaited call either resolves with the response's [data], read at the
    type the component declares for it, or rejects. *)
Inductive Result (A : Type) : Type :=
| Resolved (payload : A)
| Rejected (err : AxiosError).
Arguments Resolved {A} payload.
Arguments Rejected {A} err.

(** [Promise.all] over three calls already issued.  It resolves when all
    three do, and rejects with the reason of the first call that rejects;
    [order] lists the calls (0, 1, 2) in the order in which they settle. *)
Definition rejection {A} (i : nat) (r : Result A) : list (nat * AxiosError) :=
  match r with
  | Rejected e => [(i, e)]
  | Resolved _ => []
  end.

Fixpoint first_settled (order : list nat) (first : nat * AxiosError)
    (others : list (nat * AxiosError)) : AxiosError :=
  match order with
  | [] => snd first
  | i :: order' =>
      match find (fun p => Nat.eqb (fst p) i) (first :: others) with
      | Some p => snd p
      | None => first_settled order' first others
      end
  end.

Definition Promise_all {A B C} (order : list nat)
    (a : Result A) (b : Result B) (c : Result C) : Result (A * B * C) :=
  match a, b, c with
  | Resolved x, Resolved y, Resolved z => Resolved (x, y, z)
  | Rejected e, _, _ =>
      Rejected (first_settled order (0%nat, e) (rejection 1 b ++ rejection 2 c))
  | Resolved _, Rejected e, _ =>
      Rejected (first_settled order (1%nat, e) (rejection 2 c))
  | Resolved _, Resolved _, Rejected e => Rejected e
  end.

Definition http_calls (l : list Effect) : list HttpCall :=
  flat_map (fun e => match e with Http c => [c] | _ => [] end) l.

(** *** Handlers: state passing with a log of effects *)

Section Monad.

Context {S : Type}.

Definition M (A : Type) : Type := S -> A * S * list Effect.

Definition ret {A} (a : A) : M A := fun s => (a, s, []).

Definition bind {A B} (m : M A) (f : A -> M B) : M B :=
  fun s =>
    let r := m s in
    let r' := f (fst (fst r)) (snd (fst r)) in
    (fst (fst r'), snd (fst r'), snd r ++ snd r').

Definition get : M S := fun s => (s, s, []).

Definition modify (f : S -> S) : M unit := fun s => (tt, f s, []).

Definition emit (e : Effect) : M unit := fun s => (tt, s, [e]).

(** The state a handler leaves, and what it did. *)
Definition exec {A} (m : M A) (s : S) : S := snd (fst (m s)).
Definition effects {A} (m : M A) (s : S) : list Effect := snd (m s).

End Monad.

Arguments M : clear implicits.

Declare Scope handler_scope.
Delimit Scope handler_scope with handler.
Notation "x <- c1 ;; c2" := (bind c1 (fun x => c2))
  (at level 61, c1 at next level, right associativity) : handler_scope.
Notation "c1 ;; c2" := (bind c1 (fun _ => c2))
  (at level 61, right associativity) : handler_scope.

End Http.

(** ** The requests-received view *)

Module RequestsReceived.
Import JS Http.
Local Open Scope string_scope.
Local Open Scope handler_scope.

Record Requestor : Type := { name : string }.

Record ReceivedRequest : Type := {
  id : Z;
  requestorId : Z;
  type : string;
  price : Number;
  quantity : Number;
  reason : string;
  status : string;
  created_at : string;
  requestor : Requestor
}.

(** The [useState] cells of the component. *)
Record State : Type := {
  requests : list ReceivedRequest;
  loading : bool;
  error : string;
  selectedIds : list Z;
  showOverdueAlert : bool;
  overdueRequests : list ReceivedRequest
}.

Definition initial : State := {|
  requests := [];
  loading := true;
  error := "";
  selectedIds := [];
  showOverdueAlert := false;
  overdueRequests := []
|}.

Definition setRequests (v : list ReceivedRequest) : M State unit :=
  modify (fun s => {| requests := v; loading := loading s; error := error s;
                      selectedIds := selectedIds s;
                      showOverdueAlert := showOverdueAlert s;
                      overdueRequests := overdueRequests s |}).

Definition setLoading (v : bool) : M State unit :=
  modify (fun s => {| requests := requests s; loading := v; error := error s;
                      selectedIds := selectedIds s;
                      showOverdueAlert := showOverdueAlert s;
                      overdueRequests := overdueRequests s |}).

Definition setError (v : string) : M State unit :=
  modify (fun s => {| requests := requests s; loading := loading s; error := v;
                      selectedIds := selectedIds s;
                      showOverdueAlert := showOverdueAlert s;
                      overdueRequests := overdueRequests s |}).

(** [setSelectedIds] takes an updater, as [handleCheckboxChange] gives it
    one; the other callers pass a constant. *)
Definition setSelectedIds (f : list Z -> list Z) : M State unit :=
  modify (fun s => {| requests := requests s; loading := loading s;
                      error := error s; selectedIds := f (selectedIds s);
                      showOverdueAlert := showOverdueAlert s;
                      overdueRequests := overdueRequests s |}).

Definition setShowOverdueAlert (v : bool) : M State unit :=
  modify (fun s => {| requests := requests s; loading := loading s;
                      error := error s; selectedIds := selectedIds s;
                      showOverdueAlert := v;
                      overdueRequests := overdueRequests s |}).

Definition setOverdueRequests (v : list ReceivedRequest) : M State unit :=
  modify (fun s => {| requests := requests s; loading := loading s;
                      error := error s; selectedIds := selectedIds s;
                      showOverdueAlert := showOverdueAlert s;
                      overdueRequests := v |}).

(** The payload of [/requests/bulk-process]: the handler reads the lengths
    of [results.successful] and [results.failed]. *)
Record BulkResults : Type := {
  successful_length : nat;
  failed_length : nat
}.

Definition newline : string := String (ascii_of_nat 10) EmptyString.

(** [prev.includes(id)], [prev.filter(i => i !== id)] and [[...prev, id]].
    Ids are integers, on which the equality of [includes] and [!==] agree. *)
Definition includes (l : list Z) (x : Z) : bool := existsb (Z.eqb x) l.

Definition toggle (x : Z) (prev : list Z) : list Z :=
  if includes prev x
  then filter (fun i => negb (Z.eqb i x)) prev
  else prev ++ [x].

Section Component.

Variable Date_parse : string -> Number.

Definition sevenDaysAgo (clock : Z) : Date :=
  let now := new_Date_now clock in
  new_Date_number (sub (getTime now) (num (7 * 24 * 60 * 60 * 1000))).

(** The filter of [fetchRequests]. *)
Definition olderThanSevenDays (clock : Z) (req : ReceivedRequest) : bool :=
  Date_lt (new_Date_string Date_parse (created_at req)) (sevenDaysAgo clock).

(** [fetchRequests] up to its [await]. *)
Definition fetchRequests_begin : M State unit :=
  setLoading true ;;
  emit (Http (api_get "/requests/received")).

(** [fetchRequests] from the answer on; [clock] is what [new Date()] reads. *)
Definition fetchRequests_resume
    (clock : Z) (res : Result (list ReceivedRequest)) : M State unit :=
  match res with
  | Resolved payload =>
      setRequests payload ;;
      let overdue := filter (olderThanSevenDays clock) payload in
      (if (0 <? List.length overdue)%nat
       then setOverdueRequests overdue ;; setShowOverdueAlert true
       else ret tt) ;;
      setError ""
  | Rejected err =>
      setError (or_else (response_data_message err) "Failed to fetch requests")
  end ;;
  setLoading false.

Definition fetchRequests
    (clock : Z) (res : Result (list ReceivedRequest)) : M State unit :=
  fetchRequests_begin ;; fetchRequests_resume clock res.

(** [fetchRequests()] is called without [await]: it runs up to its own
    [await], the caller clears the selection, and the fetch resumes later. *)
Definition handleProcessRequest
    (id : Z) (action : Action) (posted : Result unit)
    (clock : Z) (res : Result (list ReceivedRequest)) : M State unit :=
  emit (Http (api_post ("/requests/" ++ Number_toString id ++ "/process")
                       (ProcessBody action))) ;;
  match posted with
  | Resolved _ =>
      fetchRequests_begin ;;
      setSelectedIds (fun _ => []) ;;
      fetchRequests_resume clock res
  | Rejected err =>
      setError (or_else (response_data_message err)
                  ("Failed to " ++ toLowerCase (Action_string action)
                   ++ " request"))
  end.

Definition handleBulkProcess
    (action : Action) (confirmed : bool) (posted : Result BulkResults)
    (clock : Z) (res : Result (list ReceivedRequest)) : M State unit :=
  st <- get ;;
  if (List.length (selectedIds st) =? 0)%nat
  then emit (Alert "Please select at least one request")
  else
    emit (Confirm ("Are you sure you want to "
                   ++ toLowerCase (Action_string action) ++ " "
                   ++ Number_toString (Z.of_nat (List.length (selectedIds st)))
                   ++ " request(s)?")) ;;
    if negb confirmed then ret tt
    else
      emit (Http (api_post "/requests/bulk-process"
                           (BulkProcessBody (selectedIds st) action))) ;;
      match posted with
      | Resolved payload =>
          emit (Alert ("Successfully processed: "
                       ++ Number_toString (Z.of_nat (successful_length payload))
                       ++ newline ++ "Failed: "
                       ++ Number_toString (Z.of_nat (failed_length payload)))) ;;
          fetchRequests_begin ;;
          setSelectedIds (fun _ => []) ;;
          fetchRequests_resume clock res
      | Rejected err =>
          setError (or_else (response_data_message err)
                      "Failed to process requests")
      end.

Definition handleCheckboxChange (id : Z) : M State unit :=
  setSelectedIds (toggle id).

Definition handleSelectAll : M State unit :=
  st <- get ;;
  if (List.length (selectedIds st) =? List.length (requests st))%nat
  then setSelectedIds (fun _ => [])
  else setSelectedIds (fun _ => map id (requests st)).

Definition isOverdue (clock : Z) (dateString : string) : bool :=
  let requestDate := new_Date_string Date_parse dateString in
  let now := new_Date_now clock in
  let daysDiff :=
    div (sub (getTime now) (getTime requestDate))
        (num (1000 * 60 * 60 * 24)) in
  gt daysDiff (num 7).

(** *** What the component renders *)

Record Row : Type := {
  row_request : ReceivedRequest;
  row_overdue : bool;
  row_checked : bool
}.

Record BulkActions : Type := {
  select_all_checked : bool;
  selected_count : nat;
  buttons_disabled : bool
}.

Record Page : Type := {
  error_banner : option string;
  overdue_modal : option (list ReceivedRequest);
  bulk_actions : option BulkActions;
  rows : list Row
}.

Inductive View : Type :=
| Loading
| Rendered (p : Page).

(** The component body after the hooks, rendered when the clock reads
    [clock]. *)
Definition render (clock : Z) (st : State) : View :=
  if loading st then Loading
  else Rendered {|
    error_banner := if truthy (error st) then Some (error st) else None;
    overdue_modal :=
      if showOverdueAlert st then Some (overdueRequests st) else None;
    bulk_actions :=
      if (0 <? List.length (requests st))%nat
      then Some {|
        select_all_checked :=
          (List.length (selectedIds st) =? List.length (requests st))%nat;
        selected_count := List.length (selectedIds st);
        buttons_disabled := (List.length (selectedIds st) =? 0)%nat |}
      else None;
    rows :=
      map (fun request => {|
             row_request := request;
             row_overdue := isOverdue clock (created_at request);
             row_checked := includes (selectedIds st) (id request) |})
          (requests st)
  |}.

(** *** Events *)

(** What can happen to the mounted component, with what the handler is
    answered while it runs. *)
Inductive Event : Type :=
| Mounted (clock : Z) (res : Result (list ReceivedRequest))
| ProcessClicked (id : Z) (action : Action) (posted : Result unit)
                 (clock : Z) (res : Result (list ReceivedRequest))
| BulkClicked (action : Action) (confirmed : bool)
              (posted : Result BulkResults)
              (clock : Z) (res : Result (list ReceivedRequest))
| CheckboxChanged (id : Z)
| SelectAllChanged
| OverdueAlertClosed
| BackToDashboardClicked
| LogoutClicked.

Definition handle (ev : Event) : M State unit :=
  match ev with
  | Mounted clock res => fetchRequests clock res
  | ProcessClicked id action posted clock res =>
      handleProcessRequest id action posted clock res
  | BulkClicked action confirmed posted clock res =>
      handleBulkProcess action confirmed posted clock res
  | CheckboxChanged id => handleCheckboxChange id
  | SelectAllChanged => handleSelectAll
  | OverdueAlertClosed => setShowOverdueAlert false
  | BackToDashboardClicked => emit (Navigate "/dashboard")
  | LogoutClicked => emit Logout
  end.

End Component.

End RequestsReceived.

(** ** The dashboard view *)

Module Dashboard.
Import JS Http.
Local Open Scope string_scope.
Local Open Scope handler_scope.

Record Balance : Type := {
  companyName : string;
  carbonBalance : Number;
  cashBalance : Number
}.

Module Company.
Record t : Type := {
  id : Z;
  name : string
}.
End Company.

Record Recipient : Type := { name : string }.

Record Request : Type := {
  id : Z;
  recipientId : Z;
  type : string;
  price : Number;
  quantity : Number;
  reason : string;
  status : string;
  created_at : string;
  recipient : Recipient
}.

(** The form's fields, all strings. *)
Module FormData.
Record t : Type := {
  recipientId : string;
  type : string;
  price : string;
  quantity : string;
  reason : string
}.
End FormData.

Definition emptyForm : FormData.t := {|
  FormData.recipientId := "";
  FormData.type := "BUY";
  FormData.price := "";
  FormData.quantity := "";
  FormData.reason := ""
|}.

Record State : Type := {
  balance : option Balance;
  requests : list Request;
  companies : list Company.t;
  loading : bool;
  error : string;
  showRequestForm : bool;
  editingRequest : option Request;
  formData : FormData.t
}.

Definition initial : State := {|
  balance := None;
  requests := [];
  companies := [];
  loading := true;
  error := "";
  showRequestForm := false;
  editingRequest := None;
  formData := emptyForm
|}.

Definition setBalance (v : option Balance) : M State unit :=
  modify (fun s => {| balance := v; requests := requests s;
                      companies := companies s; loading := loading s;
                      error := error s; showRequestForm := showRequestForm s;
                      editingRequest := editingRequest s;
                      formData := formData s |}).

Definition setRequests (v : list Request) : M State unit :=
  modify (fun s => {| balance := balance s; requests := v;
                      companies := companies s; loading := loading s;
                      error := error s; showRequestForm := showRequestForm s;
                      editingRequest := editingRequest s;
                      formData := formData s |}).

Definition setCompanies (v : list Company.t) : M State unit :=
  modify (fun s => {| balance := balance s; requests := requests s;
                      companies := v; loading := loading s;
                      error := error s; showRequestForm := showRequestForm s;
                      editingRequest := editingRequest s;
                      formData := formData s |}).

Definition setLoading (v : bool) : M State unit :=
  modify (fun s => {| balance := balance s; requests := requests s;
                      companies := companies s; loading := v;
                      error := error s; showRequestForm := showRequestForm s;
                      editingRequest := editingRequest s;
                      formData := formData s |}).

Definition setError (v : string) : M State unit :=
  modify (fun s => {| balance := balance s; requests := requests s;
                      companies := companies s; loading := loading s;
                      error := v; showRequestForm := showRequestForm s;
                      editingRequest := editingRequest s;
                      formData := formData s |}).

Definition setShowRequestForm (v : bool) : M State unit :=
  modify (fun s => {| balance := balance s; requests := requests s;
                      companies := companies s; loading := loading s;
                      error := error s; showRequestForm := v;
                      editingRequest := editingRequest s;
                      formData := formData s |}).

Definition setEditingRequest (v : option Request) : M State unit :=
  modify (fun s => {| balance := balance s; requests := requests s;
                      companies := companies s; loading := loading s;
                      error := error s; showRequestForm := showRequestForm s;
                      editingRequest := v;
                      formData := formData s |}).

Definition setFormData (v : FormData.t) : M State unit :=
  modify (fun s => {| balance := balance s; requests := requests s;
                      companies := companies s; loading := loading s;
                      error := error s; showRequestForm := showRequestForm s;
                      editingRequest := editingRequest s;
                      formData := v |}).

(** The answers to the three calls of [fetchData], and the order in which
    they arrive. *)
Record Answers : Type := {
  balanceRes : Result Balance;
  requestsRes : Result (list Request);
  companiesRes : Result (list Company.t);
  settled : list nat
}.

Section Component.

(** The engine's [parseInt], [parseFloat] and Number::toString. *)
Variable parseInt : string -> Number.
Variable parseFloat : string -> Number.
Variable toString : Number -> string.

(** [fetchData] up to its [await]: the three calls are issued before any
    answer is looked at. *)
Definition fetchData_begin : M State unit :=
  setLoading true ;;
  emit (Http (api_get "/company/balance")) ;;
  emit (Http (api_get "/requests/made")) ;;
  emit (Http (api_get "/company/list")).

Definition fetchData_resume (a : Answers) : M State unit :=
  match Promise_all (settled a) (balanceRes a) (requestsRes a) (companiesRes a)
  with
  | Resolved (balanceData, requestsData, companiesData) =>
      setBalance (Some balanceData) ;;
      setRequests requestsData ;;
      setCompanies companiesData ;;
      setError ""
  | Rejected err =>
      setError (or_else (response_data_message err) "Failed to fetch data")
  end ;;
  setLoading false.

Definition fetchData (a : Answers) : M State unit :=
  fetchData_begin ;; fetchData_resume a.

Definition resetForm : M State unit :=
  setFormData emptyForm ;;
  setEditingRequest None ;;
  setShowRequestForm false.

(** The body both submit handlers build from the form. *)
Definition requestBody (f : FormData.t) : Body :=
  RequestBody (parseInt (FormData.recipientId f))
              (FormData.type f)
              (parseFloat (FormData.price f))
              (parseFloat (FormData.quantity f))
              (FormData.reason f).

(** The submit handlers; [e.preventDefault()] and the [console.log] of a
    failure leave the component alone and are not modelled. *)
Definition handleCreateRequest
    (posted : Result unit) (a : Answers) : M State unit :=
  st <- get ;;
  emit (Http (api_post "/requests" (requestBody (formData st)))) ;;
  match posted with
  | Resolved _ =>
      setShowRequestForm false ;;
      resetForm ;;
      fetchData a
  | Rejected err =>
      setError (or_else (response_data_message err) "Failed to create request")
  end.

Definition handleUpdateRequest
    (answered : Result unit) (a : Answers) : M State unit :=
  st <- get ;;
  match editingRequest st with
  | None => ret tt
  | Some editing =>
      emit (Http (api_put ("/requests/" ++ Number_toString (id editing))
                          (requestBody (formData st)))) ;;
      match answered with
      | Resolved _ =>
          setEditingRequest None ;;
          resetForm ;;
          fetchData a
      | Rejected err =>
          setError (or_else (response_data_message err)
                      "Failed to update request")
      end
  end.

Definition handleDeleteRequest
    (id : Z) (confirmed : bool) (deleted : Result unit) (a : Answers)
    : M State unit :=
  emit (Confirm "Are you sure you want to delete this request?") ;;
  if negb confirmed then ret tt
  else
    emit (Http (api_delete ("/requests/" ++ Number_toString id))) ;;
    match deleted with
    | Resolved _ => fetchData a
    | Rejected err =>
        setError (or_else (response_data_message err)
                    "Failed to delete request")
    end.

Definition handleEditClick (request : Request) : M State unit :=
  setEditingRequest (Some request) ;;
  setFormData {|
    FormData.recipientId := Number_toString (recipientId request);
    FormData.type := type request;
    FormData.price := toString (price request);
    FormData.quantity := toString (quantity request);
    FormData.reason := or_else (Some (reason request)) ""
  |} ;;
  setShowRequestForm true.

(** The "New Request"/"Cancel" button. *)
Definition toggleForm : M State unit :=
  st <- get ;;
  resetForm ;;
  setShowRequestForm (negb (showRequestForm st)).

(** The form's [onSubmit]. *)
Definition handleSubmit (answered : Result unit) (a : Answers) : M State unit :=
  st <- get ;;
  match editingRequest st with
  | Some _ => handleUpdateRequest answered a
  | None => handleCreateRequest answered a
  end.

(** The [onChange] of the form's controls:
    [setFormData({ ...formData, field: e.target.value })]. *)
Inductive Field : Type :=
| RecipientIdField | TypeField | PriceField | QuantityField | ReasonField.

Definition withField (f : FormData.t) (field : Field) (value : string)
    : FormData.t :=
  {| FormData.recipientId :=
       match field with
       | RecipientIdField => value
       | _ => FormData.recipientId f
       end;
     FormData.type :=
       match field with TypeField => value | _ => FormData.type f end;
     FormData.price :=
       match field with PriceField => value | _ => FormData.price f end;
     FormData.quantity :=
       match field with QuantityField => value | _ => FormData.quantity f end;
     FormData.reason :=
       match field with ReasonField => value | _ => FormData.reason f end |}.

Definition handleFieldChange (field : Field) (value : string) : M State unit :=
  st <- get ;;
  setFormData (withField (formData st) field value).

(** *** What the component renders *)

Record FormView : Type := {
  form_title : string;
  form_fields : FormData.t;
  company_options : list Company.t;
  submit_label : string
}.

Record Page : Type := {
  error_banner : option string;
  balance_shown : option Balance;
  toggle_label : string;
  request_form : option FormView;
  table : list Request
}.

Inductive View : Type :=
| Loading
| Rendered (p : Page).

Definition render (st : State) : View :=
  if loading st then Loading
  else Rendered {|
    error_banner := if truthy (error st) then Some (error st) else None;
    balance_shown := balance st;
    toggle_label := if showRequestForm st then "Cancel" else "New Request";
    request_form :=
      if showRequestForm st
      then Some {|
        form_title :=
          match editingRequest st with
          | Some _ => "Edit Request"
          | None => "Create New Request"
          end;
        form_fields := formData st;
        company_options := companies st;
        submit_label :=
          match editingRequest st with
          | Some _ => "Update Request"
          | None => "Create Request"
          end |}
      else None;
    table := requests st
  |}.

(** *** Events *)

Inductive Event : Type :=
| Mounted (a : Answers)
| FormSubmitted (answered : Result unit) (a : Answers)
| DeleteClicked (id : Z) (confirmed : bool) (deleted : Result unit)
                (a : Answers)
| EditClicked (request : Request)
| FormToggled
| CancelClicked
| FieldChanged (field : Field) (value : string)
| ViewReceivedClicked
| LogoutClicked.

Definition handle (ev : Event) : M State unit :=
  match ev with
  | Mounted a => fetchData a
  | FormSubmitted answered a => handleSubmit answered a
  | DeleteClicked id confirmed deleted a =>
      handleDeleteRequest id confirmed deleted a
  | EditClicked request => handleEditClick request
  | FormToggled => toggleForm
  | CancelClicked => resetForm
  | FieldChanged field value => handleFieldChange field value
  | ViewReceivedClicked => emit (Navigate "/requests-received")
  | LogoutClicked => emit Logout
  end.

End Component.

End Dashboard.

(** ** One engine to run the model on *)

(** The components are parametric in the engine's parsers.  To evaluate
    them on concrete inputs this module fixes one behaviour: [Date.parse] on
    the date-time format [YYYY-MM-DDTHH:mm:ss.sssZ] in which JSON carries
    timestamps (any other string is taken to be unparsable), and [parseInt]
    and [parseFloat] on plain digits. *)
Module Engine.
Import JS.

Definition digit (c : ascii) : option Z :=
  let n := nat_of_ascii c in
  if ((48 <=? n) && (n <=? 57))%nat then Some (Z.of_nat (n - 48)) else None.

(** The decimal number written by [len] digits of [s] from position [pos]. *)
Fixpoint digits (s : string) (pos len : nat) (acc : Z) : option Z :=
  match len with
  | O => Some acc
  | S len' =>
      match String.get pos s with
      | None => None
      | Some c =>
          match digit c with
          | None => None
          | Some d => digits s (S pos) len' (10 * acc + d)
          end
      end
  end.

Definition charAt (s : string) (pos : nat) (c : string) : bool :=
  String.eqb (String.substring pos 1 s) c.

Definition isLeapYear (y : Z) : bool :=
  ((y mod 4 =? 0) && negb (y mod 100 =? 0)) || (y mod 400 =? 0).

Definition daysInMonth (y m : Z) : Z :=
  if m =? 2 then (if isLeapYear y then 29 else 28)
  else if (m =? 4) || (m =? 6) || (m =? 9) || (m =? 11) then 30
  else 31.

(** Days from the epoch to the civil date [y]-[m]-[d]. *)
Definition daysFromCivil (y m d : Z) : Z :=
  let y' := if m <=? 2 then y - 1 else y in
  let era := y' / 400 in
  let yoe := y' - era * 400 in
  let mp := (m + 9) mod 12 in
  let doy := (153 * mp + 2) / 5 + d - 1 in
  let doe := yoe * 365 + yoe / 4 - yoe / 100 + doy in
  era * 146097 + doe - 719468.

Definition Date_parse (s : string) : Number :=
  match digits s 0 4 0, digits s 5 2 0, digits s 8 2 0,
        digits s 11 2 0, digits s 14 2 0, digits s 17 2 0, digits s 20 3 0 with
  | Some y, Some mo, Some d, Some h, Some mi, Some sec, Some ms =>
      if (String.length s =? 24)%nat
         && charAt s 4 "-"%string && charAt s 7 "-"%string
         && charAt s 10 "T"%string && charAt s 13 ":"%string
         && charAt s 16 ":"%string && charAt s 19 "."%string
         && charAt s 23 "Z"%string
         && (1 <=? mo) && (mo <=? 12) && (1 <=? d) && (d <=? daysInMonth y mo)
         && (h <=? 23) && (mi <=? 59) && (sec <=? 59)
      then num (daysFromCivil y mo d * 86400000
                + h * 3600000 + mi * 60000 + sec * 1000 + ms)
      else NaN
  | _, _, _, _, _, _, _ => NaN
  end.

(** The binary64 of the Standard Library, to check [round] and the
    arithmetic of [isOverdue] against. *)
Definition binary64 (z : Z) : spec_float := binary_normalize 53 1024 z 0 false.

Definition binary64_value (x : spec_float) : Number :=
  match x with
  | S754_zero _ => Some 0%Q
  | S754_finite s m e =>
      Some ((if s then -1 else 1) * inject_Z (Z.pos m) * 2 ^ e)%Q
  | _ => None
  end.

Definition sameNumber (a b : Number) : bool :=
  match a, b with
  | Some x, Some y => Qeq_bool x y
  | None, None => true
  | _, _ => false
  end.

(** [n / d] and [n - d] on two integers that are doubles, and the double
    nearest to [n * 2^e], each computed both ways. *)
Definition quotientAgrees (n d : Z) : bool :=
  sameNumber (binary64_value (SFdiv 53 1024 (binary64 n) (binary64 d)))
             (div (num n) (num d)).

Definition differenceAgrees (n d : Z) : bool :=
  sameNumber (binary64_value (SFsub 53 1024 (binary64 n) (binary64 d)))
             (sub (num n) (num d)).

Definition roundingAgrees (n e : Z) : bool :=
  sameNumber (binary64_value (binary_normalize 53 1024 n e false))
             (Some (round (inject_Z n * 2 ^ e))).

Definition binary64_isOverdue (now requestDate : Z) : bool :=
  let daysDiff :=
    SFdiv 53 1024 (SFsub 53 1024 (binary64 now) (binary64 requestDate))
          (binary64 (1000 * 60 * 60 * 24)) in
  SFltb (binary64 7) daysDiff.

(** [parseInt] and [parseFloat] on plain unsigned decimal digits; any other
    string is taken to be NaN. *)
Definition parseDigits (s : string) : Number :=
  match s with
  | EmptyString => NaN
  | _ => option_map inject_Z (digits s 0 (String.length s) 0)
  end.

(** Number::toString on the integers among the Numbers. *)
Definition toString (x : Number) : string :=
  match x with
  | None => "NaN"%string
  | Some q => Number_toString (Qtrunc q)
  end.

End Engine.

(** ** The vocabulary of the properties *)

Module Properties.
Import JS Http.
Local Open Scope string_scope.

(** *** Overdue requests *)

Definition sevenDays : Z := 7 * 24 * 60 * 60 * 1000.

(** Strictly more than seven days lie between the time value [created] and
    the time value [now]; never so when one of them is NaN. *)
Definition moreThanSevenDaysBetween (created now : Date) : Prop :=
  exists t n : Z, created = Some t /\ now = Some n /\ sevenDays < n - t.

(** *** Calls *)

(** The POSTs among some calls. *)
Definition posts (l : list HttpCall) : list HttpCall :=
  filter (fun c => match method c with POST => true | _ => false end) l.

(** A path under [/requests]. *)
Definition underRequests (path : string) : bool :=
  String.eqb path "/requests" || String.prefix "/requests/" path.

(** The endpoints the views call: the balance, the company list, or a path
    under [/requests]. *)
Definition knownPath (path : string) : bool :=
  String.eqb path "/company/balance" || String.eqb path "/company/list"
  || underRequests path.

(** The calls of the two views, by method and path. *)
Inductive Endpoint : HttpCall -> Prop :=
| balance_endpoint : Endpoint (api_get "/company/balance")
| companies_endpoint : Endpoint (api_get "/company/list")
| made_endpoint : Endpoint (api_get "/requests/made")
| received_endpoint : Endpoint (api_get "/requests/received")
| create_endpoint b : Endpoint (api_post "/requests" b)
| update_endpoint id b :
    Endpoint (api_put ("/requests/" ++ Number_toString id) b)
| delete_endpoint id :
    Endpoint (api_delete ("/requests/" ++ Number_toString id))
| process_endpoint id b :
    Endpoint (api_post ("/requests/" ++ Number_toString id ++ "/process") b)
| bulk_process_endpoint b : Endpoint (api_post "/requests/bulk-process" b).

(** *** The calls of [fetchData] *)

(** The reasons of the calls that rejected, in the order of the calls. *)
Definition rejections (a : Dashboard.Answers) : list AxiosError :=
  map snd (rejection 0 (Dashboard.balanceRes a)
           ++ rejection 1 (Dashboard.requestsRes a)
           ++ rejection 2 (Dashboard.companiesRes a)).

Definition allResolved (a : Dashboard.Answers) : Prop :=
  exists b r c,
    Dashboard.balanceRes a = Resolved b
    /\ Dashboard.requestsRes a = Resolved r
    /\ Dashboard.companiesRes a = Resolved c.

(** The call of [fetchData] that rejected, by position: 0 is
    [/company/balance], 1 is [/requests/made], 2 is [/company/list]. *)
Definition rejectedAt (a : Dashboard.Answers) (i : nat) : option AxiosError :=
  match i with
  | 0%nat =>
      match Dashboard.balanceRes a with Rejected e => Some e | _ => None end
  | 1%nat =>
      match Dashboard.requestsRes a with Rejected e => Some e | _ => None end
  | 2%nat =>
      match Dashboard.companiesRes a with Rejected e => Some e | _ => None end
  | _ => None
  end.

(** *** Errors and the banner *)

(** The text the error state takes from a rejection: the response's
    [message] when there is one and it is not empty, the handler's own
    fallback otherwise. *)
Definition reports (err : AxiosError) (fallback : string) (shown : string)
    : Prop :=
  match response_data_message err with
  | Some m => (m <> "" /\ shown = m) \/ (m = "" /\ shown = fallback)
  | None => shown = fallback
  end.

(** What the error banner of a rendering shows, if it is there. *)
Definition receivedBanner (v : RequestsReceived.View) : option string :=
  match v with
  | RequestsReceived.Loading => None
  | RequestsReceived.Rendered p => RequestsReceived.error_banner p
  end.

Definition dashboardBanner (v : Dashboard.View) : option string :=
  match v with
  | Dashboard.Loading => None
  | Dashboard.Rendered p => Dashboard.error_banner p
  end.

End Properties.

(** ** The model at work on concrete inputs *)

Module Samples.
Import JS Http Properties.
Local Open Scope string_scope.

(** 2024-02-01T00:00:00Z and one minute later. *)
Definition clock1 : Z := 1706745600000.
Definition clock2 : Z := 1706745660000.

Definition oldRequest : RequestsReceived.ReceivedRequest := {|
  RequestsReceived.id := 1;
  RequestsReceived.requestorId := 7;
  RequestsReceived.type := "BUY";
  RequestsReceived.price := num 25;
  RequestsReceived.quantity := num 100;
  RequestsReceived.reason := "offset";
  RequestsReceived.status := "PENDING";
  RequestsReceived.created_at := "2024-01-01T00:00:00.000Z";
  RequestsReceived.requestor := {| RequestsReceived.name := "Acme" |}
|}.

Definition recentRequest : RequestsReceived.ReceivedRequest := {|
  RequestsReceived.id := 2;
  RequestsReceived.requestorId := 8;
  RequestsReceived.type := "SELL";
  RequestsReceived.price := num 30;
  RequestsReceived.quantity := num 5;
  RequestsReceived.reason := "";
  RequestsReceived.status := "PENDING";
  RequestsReceived.created_at := "2024-01-30T09:00:00.000Z";
  RequestsReceived.requestor := {| RequestsReceived.name := "Birch" |}
|}.

Definition selecting (ids : list Z) : RequestsReceived.State := {|
  RequestsReceived.requests := [oldRequest; recentRequest];
  RequestsReceived.loading := false;
  RequestsReceived.error := "";
  RequestsReceived.selectedIds := ids;
  RequestsReceived.showOverdueAlert := false;
  RequestsReceived.overdueRequests := []
|}.

Definition rejectedWith (m : option string) : AxiosError :=
  {| response := Some {| data := Some {| message := m |} |} |}.

Definition networkError : AxiosError := {| response := None |}.

Definition someBalance : Dashboard.Balance := {|
  Dashboard.companyName := "Acme";
  Dashboard.carbonBalance := num 1000;
  Dashboard.cashBalance := num 50000
|}.

Definition madeRequest : Dashboard.Request := {|
  Dashboard.id := 12;
  Dashboard.recipientId := 3;
  Dashboard.type := "BUY";
  Dashboard.price := num 20;
  Dashboard.quantity := num 10;
  Dashboard.reason := "";
  Dashboard.status := "PENDING";
  Dashboard.created_at := "2024-01-30T09:00:00.000Z";
  Dashboard.recipient := {| Dashboard.name := "Birch" |}
|}.

Definition allFine : Dashboard.Answers := {|
  Dashboard.balanceRes := Resolved someBalance;
  Dashboard.requestsRes := Resolved [madeRequest];
  Dashboard.companiesRes :=
    Resolved [{| Dashboard.Company.id := 3;
                 Dashboard.Company.name := "Birch" |}];
  Dashboard.settled := [0; 1; 2]%nat
|}.

(** The balance call fails without a response; the other two succeed. *)
Definition balanceDown : Dashboard.Answers := {|
  Dashboard.balanceRes := Rejected networkError;
  Dashboard.requestsRes := Resolved [madeRequest];
  Dashboard.companiesRes := Resolved [];
  Dashboard.settled := [1; 2; 0]%nat
|}.

(** Two calls fail, each with its own message; the second call's rejection
    arrives first. *)
Definition twoDown : Dashboard.Answers := {|
  Dashboard.balanceRes := Rejected (rejectedWith (Some "balance unavailable"));
  Dashboard.requestsRes :=
    Rejected (rejectedWith (Some "requests unavailable"));
  Dashboard.companiesRes := Resolved [];
  Dashboard.settled := [1; 0; 2]%nat
|}.

Definition filledForm : Dashboard.FormData.t := {|
  Dashboard.FormData.recipientId := "3";
  Dashboard.FormData.type := "SELL";
  Dashboard.FormData.price := "20";
  Dashboard.FormData.quantity := "10";
  Dashboard.FormData.reason := "surplus"
|}.

Definition editing (r : option Dashboard.Request) : Dashboard.State := {|
  Dashboard.balance := Some someBalance;
  Dashboard.requests := [madeRequest];
  Dashboard.companies := [];
  Dashboard.loading := false;
  Dashboard.error := "";
  Dashboard.showRequestForm := true;
  Dashboard.editingRequest := r;
  Dashboard.formData := filledForm
|}.

(** C2 as it is written: only [/company/balance] and paths under
    [/requests]. *)
Definition claimedPath (path : string) : bool :=
  String.eqb path "/company/balance" || underRequests path.

(** C6 as it is written: of the whole state only the error changes. *)
Definition onlyErrorChanged (st st' : Dashboard.State) : Prop :=
  Dashboard.balance st' = Dashboard.balance st
  /\ Dashboard.requests st' = Dashboard.requests st
  /\ Dashboard.companies st' = Dashboard.companies st
  /\ Dashboard.loading st' = Dashboard.loading st
  /\ Dashboard.showRequestForm st' = Dashboard.showRequestForm st
  /\ Dashboard.editingRequest st' = Dashboard.editingRequest st
  /\ Dashboard.formData st' = Dashboard.formData st.

End Samples.

(** ** Sessions: sequences of events, and what a rendering shows *)

Module Sessions.
Import JS Http.
Local Open Scope string_scope.

(** The state after a sequence of events, each handled to its end. *)
Definition receivedAfter (Date_parse : string -> Number)
    (evs : list RequestsReceived.Event) (st : RequestsReceived.State)
    : RequestsReceived.State :=
  fold_left (fun s ev => exec (RequestsReceived.handle Date_parse ev) s) evs st.

Definition dashboardAfter (parseInt parseFloat : string -> Number)
    (toString : Number -> string)
    (evs : list Dashboard.Event) (st : Dashboard.State) : Dashboard.State :=
  fold_left
    (fun s ev => exec (Dashboard.handle parseInt parseFloat toString ev) s)
    evs st.

(** The backend's answer to the GET of [/requests/received] that an event
    of the inbox carries. *)
Definition answered (ev : RequestsReceived.Event)
    : option (Result (list RequestsReceived.ReceivedRequest)) :=
  match ev with
  | RequestsReceived.Mounted _ res => Some res
  | RequestsReceived.ProcessClicked _ _ _ _ res => Some res
  | RequestsReceived.BulkClicked _ _ _ _ res => Some res
  | _ => None
  end.

(** Every list the backend answers with has distinct ids. *)
Definition distinctIds (ev : RequestsReceived.Event) : Prop :=
  forall payload,
    answered ev = Some (Resolved payload) ->
    NoDup (map RequestsReceived.id payload).

(** The list an event's fetch stores, with the clock it is read at: the
    fetch on mount, or the refetch after an accepted and successful POST. *)
Definition fetchedBy (ev : RequestsReceived.Event)
    (st : RequestsReceived.State)
    : option (Z * list RequestsReceived.ReceivedRequest) :=
  match ev with
  | RequestsReceived.Mounted clock (Resolved payload) => Some (clock, payload)
  | RequestsReceived.ProcessClicked _ _ (Resolved _) clock (Resolved payload) =>
      Some (clock, payload)
  | RequestsReceived.BulkClicked _ true (Resolved _) clock (Resolved payload) =>
      match RequestsReceived.selectedIds st with
      | [] => None
      | _ :: _ => Some (clock, payload)
      end
  | _ => None
  end.

(** The events that no handler answers with a call to the backend. *)
Definition localEvent (ev : RequestsReceived.Event) : bool :=
  match ev with
  | RequestsReceived.CheckboxChanged _
  | RequestsReceived.SelectAllChanged
  | RequestsReceived.OverdueAlertClosed
  | RequestsReceived.BackToDashboardClicked
  | RequestsReceived.LogoutClicked => true
  | _ => false
  end.

Definition formEvent (ev : Dashboard.Event) : bool :=
  match ev with
  | Dashboard.EditClicked _
  | Dashboard.FormToggled
  | Dashboard.CancelClicked
  | Dashboard.FieldChanged _ _
  | Dashboard.ViewReceivedClicked
  | Dashboard.LogoutClicked => true
  | _ => false
  end.

(** Parts of a rendering. *)
Definition renderedRows (v : RequestsReceived.View)
    : list RequestsReceived.Row :=
  match v with
  | RequestsReceived.Loading => []
  | RequestsReceived.Rendered p => RequestsReceived.rows p
  end.

Definition renderedBulkActions (v : RequestsReceived.View)
    : option RequestsReceived.BulkActions :=
  match v with
  | RequestsReceived.Loading => None
  | RequestsReceived.Rendered p => RequestsReceived.bulk_actions p
  end.

Definition renderedModal (v : RequestsReceived.View)
    : option (list RequestsReceived.ReceivedRequest) :=
  match v with
  | RequestsReceived.Loading => None
  | RequestsReceived.Rendered p => RequestsReceived.overdue_modal p
  end.

Definition renderedForm (v : Dashboard.View) : option Dashboard.FormView :=
  match v with
  | Dashboard.Loading => None
  | Dashboard.Rendered p => Dashboard.request_form p
  end.

(** A field of the form, by name. *)
Definition fieldOf (f : Dashboard.FormData.t) (field : Dashboard.Field)
    : string :=
  match field with
  | Dashboard.RecipientIdField => Dashboard.FormData.recipientId f
  | Dashboard.TypeField => Dashboard.FormData.type f
  | Dashboard.PriceField => Dashboard.FormData.price f
  | Dashboard.QuantityField => Dashboard.FormData.quantity f
  | Dashboard.ReasonField => Dashboard.FormData.reason f
  end.

(** The first call a handler issues. *)
Definition firstCall (l : list Effect) : option HttpCall :=
  hd_error (http_calls l).

End Sessions.

(** ** Facts about numbers and dates *)

Module JSFacts.
Import JS.

Lemma Qlt_bool_iff (x y : Q) : Qlt_bool x y = true <-> (x < y)%Q.
Proof.
  unfold Qlt_bool. rewrite negb_true_iff.
  split; intro H.
  - apply Qnot_le_lt. intro Hle. apply Qle_bool_iff in Hle. congruence.
  - destruct (Qle_bool y x) eqn:E; [|reflexivity].
    apply Qle_bool_iff in E. exfalso. apply (Qlt_not_le _ _ H E).
Qed.

Lemma Qtrunc_inject_Z (z : Z) : Qtrunc (inject_Z z) = z.
Proof. unfold Qtrunc. simpl. apply Z.quot_1_r. Qed.

Lemma Qabs_inject_Z_le (z b : Z) :
  (Qabs (inject_Z z) <= inject_Z b)%Q <-> Z.abs z <= b.
Proof.
  unfold Qabs, inject_Z, Qle. simpl. rewrite !Z.mul_1_r. reflexivity.
Qed.

Lemma TimeClip_num (z : Z) :
  TimeClip (num z) = if Z.abs z <=? maxTime then Some z else None.
Proof.
  unfold TimeClip, num. rewrite Qtrunc_inject_Z.
  destruct (Z.leb_spec (Z.abs z) maxTime) as [H|H].
  - apply Qabs_inject_Z_le in H. apply Qle_bool_iff in H. now rewrite H.
  - destruct (Qle_bool _ _) eqn:E; [|reflexivity].
    apply Qle_bool_iff, Qabs_inject_Z_le in E. lia.
Qed.

(** A Date's time value is always within the range of time values. *)
Lemma TimeClip_range (x : Number) (t : Z) :
  TimeClip x = Some t -> Z.abs t <= maxTime.
Proof.
  destruct x as [q|]; simpl; [|discriminate].
  destruct (Qle_bool _ _) eqn:E; [|discriminate].
  intros [= <-]. apply Qle_bool_iff in E.
  apply Qabs_Qle_condition in E. destruct E as [Hlo Hhi].
  unfold Qtrunc. destruct q as [n d]. simpl.
  unfold Qle in Hlo, Hhi. simpl in Hlo, Hhi.
  rewrite Z.mul_1_r in Hlo, Hhi.
  assert (Hd : 0 < Z.pos d) by lia.
  apply Z.abs_le. split.
  - destruct (Z.le_gt_cases 0 n) as [Hn|Hn].
    + pose proof (Z.quot_pos n (Z.pos d) Hn Hd). unfold maxTime. lia.
    + rewrite <- (Z.opp_involutive n), Z.quot_opp_l by lia.
      assert (H : (- n) ÷ Z.pos d <= maxTime).
      { apply Z.quot_le_upper_bound; [lia|]. unfold maxTime in *. lia. }
      lia.
  - destruct (Z.le_gt_cases 0 n) as [Hn|Hn].
    + apply Z.quot_le_upper_bound; [lia|]. unfold maxTime in *. lia.
    + rewrite <- (Z.opp_involutive n), Z.quot_opp_l by lia.
      pose proof (Z.quot_pos (- n) (Z.pos d) ltac:(lia) Hd).
      unfold maxTime. lia.
Qed.

(** *** Rounding to binary64 is monotone, and exact on doubles *)

Lemma pow2_pos (u : Z) : (0 < 2 ^ u)%Q.
Proof. apply Qpower_0_lt. reflexivity. Qed.

Lemma pow2_nonzero (u : Z) : ~ (2 ^ u == 0)%Q.
Proof. intro H. pose proof (pow2_pos u) as P. rewrite H in P. discriminate. Qed.

Lemma pow2_Z (a : Z) : 0 <= a -> (2 ^ a == inject_Z (2 ^ a))%Q.
Proof. intro H. now rewrite Zpower_Qpower. Qed.

Lemma pow2_split (a b : Z) : (2 ^ (a - b) == 2 ^ a / 2 ^ b)%Q.
Proof. apply Qpower_minus. discriminate. Qed.

(** [Qlog2] is the exponent of the leading bit. *)
Lemma Qlog2_spec (q : Q) :
  (0 < q)%Q -> (2 ^ Qlog2 q <= q)%Q /\ (q < 2 ^ (Qlog2 q + 1))%Q.
Proof.
  destruct q as [n d]. intro Hq.
  assert (Hn : 0 < n) by (unfold Qlt in Hq; simpl in Hq; lia).
  unfold Qlog2. cbn [Qnum Qden].
  set (a := Z.log2 n). set (b := Z.log2 (Z.pos d)).
  assert (Ha : 0 <= a) by apply Z.log2_nonneg.
  assert (Hb : 0 <= b) by apply Z.log2_nonneg.
  destruct (Z.log2_spec n Hn) as [Hn1 Hn2]. fold a in Hn1, Hn2.
  destruct (Z.log2_spec (Z.pos d) ltac:(lia)) as [Hd1 Hd2].
  fold b in Hd1, Hd2.
  rewrite <- Z.add_1_r in Hn2, Hd2.
  rewrite Z.pow_add_r in Hn2, Hd2 by lia. rewrite Z.pow_1_r in Hn2, Hd2.
  assert (Pa : 0 < 2 ^ a) by (apply Z.pow_pos_nonneg; lia).
  assert (Pb : 0 < 2 ^ b) by (apply Z.pow_pos_nonneg; lia).
  assert (Eq1 : (n # d == inject_Z n / inject_Z (Z.pos d))%Q).
  { rewrite Qmake_Qdiv. reflexivity. }
  assert (Dpos : (0 < inject_Z (Z.pos d))%Q) by reflexivity.
  assert (Qa : (0 < inject_Z (2 ^ a))%Q).
  { rewrite <- (Zlt_Qlt 0). exact Pa. }
  assert (Qb : (0 < inject_Z (2 ^ b))%Q).
  { rewrite <- (Zlt_Qlt 0). exact Pb. }
  destruct (Z.ltb_spec (n * 2 ^ b) (Z.pos d * 2 ^ a)) as [Hc|Hc].
  - replace (a - b - 1 + 1) with (a - b) by lia.
    split.
    + replace (a - b - 1) with (a - (b + 1)) by lia.
      rewrite pow2_split, (pow2_Z a Ha), (pow2_Z (b + 1)) by lia.
      rewrite Eq1.
      apply Qle_shift_div_l; [exact Dpos|].
      unfold Qdiv. rewrite <- Qmult_assoc, (Qmult_comm (/ _)), Qmult_assoc.
      apply Qle_shift_div_r.
      { rewrite <- (Zlt_Qlt 0). apply Z.pow_pos_nonneg; lia. }
      rewrite <- !inject_Z_mult, <- Zle_Qle.
      rewrite Z.pow_add_r, Z.pow_1_r by lia. nia.
    + rewrite pow2_split, (pow2_Z a Ha), (pow2_Z b Hb), Eq1.
      apply Qlt_shift_div_r; [exact Dpos|].
      unfold Qdiv. rewrite <- Qmult_assoc, (Qmult_comm (/ _)), Qmult_assoc.
      apply Qlt_shift_div_l; [exact Qb|].
      rewrite <- !inject_Z_mult, <- Zlt_Qlt. lia.
  - split.
    + rewrite pow2_split, (pow2_Z a Ha), (pow2_Z b Hb), Eq1.
      apply Qle_shift_div_l; [exact Dpos|].
      unfold Qdiv. rewrite <- Qmult_assoc, (Qmult_comm (/ _)), Qmult_assoc.
      apply Qle_shift_div_r; [exact Qb|].
      rewrite <- !inject_Z_mult, <- Zle_Qle. lia.
    + replace (a - b + 1) with (a + 1 - b) by lia.
      rewrite pow2_split, (pow2_Z (a + 1)), (pow2_Z b Hb), Eq1 by lia.
      apply Qlt_shift_div_r; [exact Dpos|].
      unfold Qdiv. rewrite <- Qmult_assoc, (Qmult_comm (/ _)), Qmult_assoc.
      apply Qlt_shift_div_l; [exact Qb|].
      rewrite <- !inject_Z_mult, <- Zlt_Qlt.
      rewrite Z.pow_add_r, Z.pow_1_r by lia. nia.
Qed.

Lemma Qlog2_unique (q : Q) (e : Z) :
  (2 ^ e <= q)%Q -> (q < 2 ^ (e + 1))%Q -> Qlog2 q = e.
Proof.
  intros H1 H2.
  assert (Hq : (0 < q)%Q) by (eapply Qlt_le_trans; [apply pow2_pos | exact H1]).
  destruct (Qlog2_spec q Hq) as [S1 S2].
  assert (A : (2 ^ e < 2 ^ (Qlog2 q + 1))%Q) by (eapply Qle_lt_trans; eauto).
  assert (B : (2 ^ Qlog2 q < 2 ^ (e + 1))%Q) by (eapply Qle_lt_trans; eauto).
  apply Qpower_lt_compat_l_inv in A; [|reflexivity].
  apply Qpower_lt_compat_l_inv in B; [|reflexivity].
  lia.
Qed.

Lemma Qlog2_le (x y : Q) : (0 < x)%Q -> (x <= y)%Q -> Qlog2 x <= Qlog2 y.
Proof.
  intros Hx Hxy.
  assert (Hy : (0 < y)%Q) by (eapply Qlt_le_trans; eauto).
  destruct (Qlog2_spec x Hx) as [X1 _]. destruct (Qlog2_spec y Hy) as [_ Y2].
  assert (A : (2 ^ Qlog2 x < 2 ^ (Qlog2 y + 1))%Q).
  { eapply Qle_lt_trans; [exact X1|]. eapply Qle_lt_trans; eauto. }
  apply Qpower_lt_compat_l_inv in A; [|reflexivity]. lia.
Qed.

Lemma Qlog2_Qeq (x y : Q) : (0 < x)%Q -> (x == y)%Q -> Qlog2 x = Qlog2 y.
Proof.
  intros Hx E. destruct (Qlog2_spec x Hx) as [X1 X2].
  symmetry. apply Qlog2_unique; rewrite <- E; assumption.
Qed.

(** Rounding to the nearest integer, ties to even, is monotone and leaves
    the integers alone. *)
Lemma Qrne_Qeq (x y : Q) : (x == y)%Q -> Qrne x = Qrne y.
Proof.
  intro E. unfold Qrne. rewrite (Qfloor_comp _ _ E).
  assert (E' : (x - inject_Z (Qfloor y) == y - inject_Z (Qfloor y))%Q)
    by (now rewrite E).
  now rewrite (Qcompare_comp _ _ E' _ _ (Qeq_refl _)).
Qed.

Lemma Qrne_inject_Z (z : Z) : Qrne (inject_Z z) = z.
Proof.
  unfold Qrne. rewrite Qfloor_Z.
  assert (E : (inject_Z z - inject_Z z == 0)%Q) by ring.
  now rewrite (Qcompare_comp _ _ E _ _ (Qeq_refl _)).
Qed.

Lemma Qrne_bounds (x : Q) : Qfloor x <= Qrne x <= Qfloor x + 1.
Proof.
  unfold Qrne. destruct (_ ?= _)%Q; [destruct (Z.even _)| |]; lia.
Qed.

Lemma Qrne_le (x y : Q) : (x <= y)%Q -> Qrne x <= Qrne y.
Proof.
  intro H. pose proof (Qfloor_resp_le _ _ H) as Hf.
  pose proof (Qrne_bounds x) as Bx. pose proof (Qrne_bounds y) as By.
  destruct (Z.eq_dec (Qfloor x) (Qfloor y)) as [E|NE]; [|lia].
  unfold Qrne. rewrite <- E.
  assert (Hd : (x - inject_Z (Qfloor x) <= y - inject_Z (Qfloor x))%Q).
  { apply Qplus_le_l with (z := inject_Z (Qfloor x)). ring_simplify. exact H. }
  destruct (Qcompare_spec (y - inject_Z (Qfloor x)) (1 # 2)) as [Ey|Ly|Gy];
    destruct (Qcompare_spec (x - inject_Z (Qfloor x)) (1 # 2)) as [Ex|Lx|Gx];
    try (destruct (Z.even (Qfloor x))); try lia; exfalso; lra.
Qed.

Lemma round_to_le (u : Z) (x y : Q) :
  (x <= y)%Q -> (round_to u x <= round_to u y)%Q.
Proof.
  intro H. unfold round_to.
  apply Qmult_le_compat_r; [|apply Qlt_le_weak, pow2_pos].
  rewrite <- Zle_Qle. apply Qrne_le.
  apply Qmult_le_compat_r; [exact H|].
  apply Qlt_le_weak, Qinv_lt_0_compat, pow2_pos.
Qed.

(** A multiple of [2^u] is on the grid of [round_to u]. *)
Lemma round_to_multiple (u z : Z) (q : Q) :
  (q == inject_Z z * 2 ^ u)%Q -> (round_to u q == q)%Q.
Proof.
  intro E. unfold round_to.
  assert (E' : (q / 2 ^ u == inject_Z z)%Q).
  { rewrite E. field. apply pow2_nonzero. }
  rewrite (Qrne_Qeq _ _ E'), Qrne_inject_Z. now rewrite E.
Qed.

Lemma pow2_multiple (u e : Z) :
  u <= e -> (2 ^ e == inject_Z (2 ^ (e - u)) * 2 ^ u)%Q.
Proof.
  intro H. rewrite <- pow2_Z by lia.
  rewrite <- Qpower_plus by discriminate. now replace (e - u + u) with e by lia.
Qed.

Lemma round_to_nonneg (u : Z) (x : Q) : (0 <= x)%Q -> (0 <= round_to u x)%Q.
Proof.
  intro H. apply Qle_trans with (y := round_to u 0).
  - assert (E : (round_to u 0 == 0)%Q).
    { apply (round_to_multiple u 0). ring. }
    rewrite E. apply Qle_refl.
  - now apply round_to_le.
Qed.

(** Across two grids: a power of two between [x] and [y] lies on both. *)
Lemma round_pos_le (x y : Q) :
  (0 < x)%Q -> (x <= y)%Q -> (round_pos x <= round_pos y)%Q.
Proof.
  intros Hx Hxy. unfold round_pos, ulp_exponent.
  assert (Hy : (0 < y)%Q) by (eapply Qlt_le_trans; eauto).
  pose proof (Qlog2_le x y Hx Hxy) as HL.
  destruct (Z.eq_dec (Z.max (Qlog2 x - 52) (-1074)) (Z.max (Qlog2 y - 52) (-1074)))
    as [E|NE].
  - rewrite E. now apply round_to_le.
  - assert (Huy : Z.max (Qlog2 y - 52) (-1074) = Qlog2 y - 52) by lia.
    assert (HLt : Qlog2 x + 1 <= Qlog2 y) by lia.
    destruct (Qlog2_spec x Hx) as [_ X2]. destruct (Qlog2_spec y Hy) as [Y1 _].
    set (b := (2 ^ Qlog2 y)%Q).
    assert (Hxb : (x <= b)%Q).
    { apply Qlt_le_weak. eapply Qlt_le_trans; [exact X2|].
      apply Qpower_le_compat_l; [exact HLt | discriminate]. }
    apply Qle_trans with (y := b).
    + rewrite <- (round_to_multiple (Z.max (Qlog2 x - 52) (-1074))
                    (2 ^ (Qlog2 y - Z.max (Qlog2 x - 52) (-1074))) b)
        by (apply pow2_multiple; lia).
      now apply round_to_le.
    + rewrite <- (round_to_multiple (Z.max (Qlog2 y - 52) (-1074))
                    (2 ^ (Qlog2 y - Z.max (Qlog2 y - 52) (-1074))) b)
        at 1 by (apply pow2_multiple; lia).
      now apply round_to_le.
Qed.

Lemma round_pos_nonneg (x : Q) : (0 <= x)%Q -> (0 <= round_pos x)%Q.
Proof. apply round_to_nonneg. Qed.

(** Rounding is monotone. *)
Lemma round_le (x y : Q) : (x <= y)%Q -> (round x <= round y)%Q.
Proof.
  intro H. unfold round.
  destruct (Qcompare_spec x 0) as [Ex|Lx|Gx];
    destruct (Qcompare_spec y 0) as [Ey|Ly|Gy]; try lra.
  - apply round_pos_nonneg. lra.
  - assert (P : (0 <= round_pos (- x))%Q) by (apply round_pos_nonneg; lra).
    lra.
  - assert (P : (round_pos (- y) <= round_pos (- x))%Q)
      by (apply round_pos_le; lra).
    lra.
  - assert (P : (0 <= round_pos (- x))%Q) by (apply round_pos_nonneg; lra).
    assert (P' : (0 <= round_pos y)%Q) by (apply round_pos_nonneg; lra).
    lra.
  - now apply round_pos_le.
Qed.

Lemma round_Qeq (x y : Q) : (x == y)%Q -> (round x == round y)%Q.
Proof.
  intro E. apply Qle_antisym; apply round_le; rewrite E; apply Qle_refl.
Qed.

Lemma round_pos_Qeq (x y : Q) :
  (0 < x)%Q -> (x == y)%Q -> (round_pos x == round_pos y)%Q.
Proof.
  intros Hx E. unfold round_pos, ulp_exponent, round_to.
  rewrite (Qlog2_Qeq x y Hx E).
  rewrite (Qrne_Qeq (x / 2 ^ Z.max (Qlog2 y - 52) (-1074))
                    (y / 2 ^ Z.max (Qlog2 y - 52) (-1074))); [reflexivity|].
  now rewrite E.
Qed.

(** A positive dyadic rational with a significand of at most 53 bits, on or
    above the grid of the subnormal numbers, is its own rounding. *)
Lemma round_pos_dyadic (m : Z) (k : nat) :
  0 < m <= 2 ^ 53 -> (k <= 1074)%nat ->
  let q := (inject_Z m / inject_Z (2 ^ Z.of_nat k))%Q in
  (round_pos q == q)%Q.
Proof.
  intros Hm Hk q.
  set (K := Z.of_nat k). assert (HK : 0 <= K <= 1074) by lia.
  assert (Eq : (q == inject_Z m * 2 ^ (- K))%Q).
  { unfold q. fold K. rewrite <- pow2_Z by lia. rewrite Qpower_opp. reflexivity. }
  destruct (Z.log2_spec m ltac:(lia)) as [M1 M2].
  set (a := Z.log2 m) in *.
  assert (Ha : 0 <= a) by apply Z.log2_nonneg.
  assert (Ha53 : a <= 53).
  { destruct (Z.le_gt_cases a 53) as [|Hgt]; [assumption|].
    assert (2 ^ 54 <= 2 ^ a) by (apply Z.pow_le_mono_r; lia). lia. }
  assert (HL : Qlog2 q = a - K).
  { apply Qlog2_unique; rewrite Eq.
    - rewrite pow2_split, Qpower_opp. unfold Qdiv.
      apply Qmult_le_compat_r; [|apply Qlt_le_weak, Qinv_lt_0_compat, pow2_pos].
      rewrite pow2_Z by lia. now rewrite <- Zle_Qle.
    - replace (a - K + 1) with (a + 1 - K) by lia.
      rewrite pow2_split, Qpower_opp. unfold Qdiv.
      apply Qmult_lt_compat_r; [apply Qinv_lt_0_compat, pow2_pos|].
      rewrite pow2_Z by lia. rewrite <- Zlt_Qlt.
      now rewrite <- Z.add_1_r in M2. }
  unfold round_pos, ulp_exponent. rewrite HL.
  destruct (Z.le_gt_cases a 52) as [Hsmall|Hbig].
  - set (u := Z.max (a - K - 52) (-1074)).
    assert (Hu : u <= - K) by lia.
    apply (round_to_multiple u (m * 2 ^ (- K - u))).
    rewrite Eq, inject_Z_mult, <- pow2_Z by lia.
    rewrite <- Qmult_assoc, <- Qpower_plus by discriminate.
    now replace (- K - u + u) with (- K) by lia.
  - assert (Ea : a = 53) by lia. rewrite Ea in *.
    assert (Em : m = 2 ^ 53) by lia.
    replace (Z.max (53 - K - 52) (-1074)) with (1 - K) by lia.
    apply (round_to_multiple (1 - K) (2 ^ 52)).
    rewrite Eq, Em, <- !pow2_Z by lia.
    rewrite <- !Qpower_plus by discriminate.
    now replace (52 + (1 - K)) with (53 + - K) by lia.
Qed.

(** Rounding leaves the doubles alone: [m / 2^k] with [|m| <= 2^53] and
    [k <= 1074]. *)
Lemma round_dyadic (m : Z) (k : nat) :
  Z.abs m <= 2 ^ 53 -> (k <= 1074)%nat ->
  (round (inject_Z m / inject_Z (2 ^ Z.of_nat k)) ==
   inject_Z m / inject_Z (2 ^ Z.of_nat k))%Q.
Proof.
  intros Hm Hk.
  assert (Pk : (0 < inject_Z (2 ^ Z.of_nat k))%Q).
  { rewrite <- (Zlt_Qlt 0). apply Z.pow_pos_nonneg; lia. }
  assert (Ik : (0 < / inject_Z (2 ^ Z.of_nat k))%Q)
    by now apply Qinv_lt_0_compat.
  unfold round.
  destruct (Qcompare_spec (inject_Z m / inject_Z (2 ^ Z.of_nat k)) 0)
    as [E|L|G].
  - now rewrite E.
  - assert (Hneg : m < 0).
    { destruct (Z.lt_ge_cases m 0) as [|Hge]; [assumption|]. exfalso.
      apply (Qlt_not_le _ _ L). unfold Qdiv.
      apply Qmult_le_0_compat; [now rewrite <- (Zle_Qle 0) | lra]. }
    assert (E : (- (inject_Z m / inject_Z (2 ^ Z.of_nat k)) ==
                 inject_Z (- m) / inject_Z (2 ^ Z.of_nat k))%Q).
    { rewrite inject_Z_opp. unfold Qdiv. ring. }
    assert (R := round_pos_dyadic (- m) k ltac:(lia) Hk). cbv zeta in R.
    assert (R' : (round_pos (- (inject_Z m / inject_Z (2 ^ Z.of_nat k))) ==
                  inject_Z (- m) / inject_Z (2 ^ Z.of_nat k))%Q).
    { assert (P : (0 < - (inject_Z m / inject_Z (2 ^ Z.of_nat k)))%Q).
      { revert L. generalize (inject_Z m / inject_Z (2 ^ Z.of_nat k))%Q.
        intros x L. lra. }
      rewrite (round_pos_Qeq _ _ P E). exact R. }
    rewrite R', <- E. ring.
  - assert (Hpos : 0 < m).
    { destruct (Z.lt_ge_cases 0 m) as [|Hle]; [assumption|]. exfalso.
      apply (Qlt_not_le _ _ G). unfold Qdiv.
      setoid_replace 0%Q with (0 * / inject_Z (2 ^ Z.of_nat k))%Q by ring.
      apply Qmult_le_compat_r; [now rewrite <- (Zle_Qle _ 0) | lra]. }
    apply (round_pos_dyadic m k); [lia | exact Hk].
Qed.

(** Integers of magnitude at most 2^53 are doubles. *)
Lemma round_integer (m : Z) :
  Z.abs m <= 2 ^ 53 -> (round (inject_Z m) == inject_Z m)%Q.
Proof.
  intro H. pose proof (round_dyadic m 0 H ltac:(lia)) as E.
  simpl in E.
  assert (E1 : (inject_Z m / inject_Z 1 == inject_Z m)%Q) by (field).
  rewrite <- E1 at 2. rewrite <- E. apply round_Qeq. now rewrite E1.
Qed.

(** 7 + 2^-27 is a double. *)
Lemma round_just_above_7 :
  (round (939524097 # 134217728) == 939524097 # 134217728)%Q.
Proof.
  pose proof (round_dyadic 939524097 27 ltac:(lia) ltac:(lia)) as E.
  assert (E1 : (inject_Z 939524097 / inject_Z (2 ^ Z.of_nat 27) ==
                939524097 # 134217728)%Q) by reflexivity.
  rewrite <- E1 at 2. rewrite <- E. apply round_Qeq. now rewrite E1.
Qed.

End JSFacts.

(** ** The overdue test *)

Module OverdueFacts.
Import JS JSFacts Http RequestsReceived Properties.

Lemma TimeClip_Qeq (q : Q) (z : Z) :
  (q == inject_Z z)%Q -> TimeClip (Some q) = TimeClip (num z).
Proof.
  intro E. unfold num, TimeClip.
  rewrite (Qleb_comp _ _ (Qabs_wd _ _ E) _ _ (Qeq_refl _)).
  replace (Qtrunc q) with (Qtrunc (inject_Z z)); [reflexivity|].
  rewrite Qtrunc_inject_Z. unfold Qtrunc.
  destruct q as [a b]. unfold Qeq in E. simpl in *.
  rewrite Z.mul_1_r in E. subst a. now rewrite Z.quot_mul by lia.
Qed.


Lemma round_difference_le (d b : Z) :
  Z.abs b <= 2 ^ 53 -> d <= b -> (round (inject_Z d) <= inject_Z b)%Q.
Proof.
  intros Hb Hd. rewrite <- (round_integer b Hb).
  apply round_le. now rewrite <- Zle_Qle.
Qed.

Lemma round_difference_ge (d b : Z) :
  Z.abs b <= 2 ^ 53 -> b <= d -> (inject_Z b <= round (inject_Z d))%Q.
Proof.
  intros Hb Hd. rewrite <- (round_integer b Hb).
  apply round_le. now rewrite <- Zle_Qle.
Qed.

(** The quotient test of [isOverdue] on two time values: rounding the
    difference and the quotient does not move the quotient across 7. *)
Lemma daysDiff_gt_7 (n t : Z) :
  gt (div (sub (num n) (num t)) (num (1000 * 60 * 60 * 24))) (num 7)
  = (sevenDays <? n - t).
Proof.
  unfold gt, lt, div, sub, num.
  change (Qeq_bool (inject_Z (1000 * 60 * 60 * 24)) 0) with false. cbv iota.
  assert (Ed : (inject_Z n - inject_Z t == inject_Z (n - t))%Q).
  { unfold Z.sub. rewrite inject_Z_plus, inject_Z_opp. reflexivity. }
  set (D := inject_Z (1000 * 60 * 60 * 24)).
  assert (HD : (0 < D)%Q) by reflexivity.
  destruct (Z.ltb_spec sevenDays (n - t)) as [H|H].
  - apply Qlt_bool_iff.
    apply Qlt_le_trans with (y := (939524097 # 134217728)%Q); [reflexivity|].
    rewrite <- round_just_above_7. apply round_le.
    apply Qle_shift_div_l; [exact HD|].
    apply Qle_trans with (y := inject_Z (sevenDays + 1)); [discriminate|].
    rewrite (round_Qeq _ _ Ed).
    apply round_difference_ge; [unfold sevenDays; lia | lia].
  - destruct (Qlt_bool _ _) eqn:E; [|reflexivity].
    apply Qlt_bool_iff in E. exfalso. apply (Qlt_not_le _ _ E).
    rewrite <- (round_integer 7 ltac:(lia)). apply round_le.
    apply Qle_shift_div_r; [exact HD|].
    apply Qle_trans with (y := inject_Z sevenDays); [|discriminate].
    rewrite (round_Qeq _ _ Ed).
    apply round_difference_le; [unfold sevenDays; lia | exact H].
Qed.

(** The cut-off date of [fetchRequests]. *)
Lemma sevenDaysAgo_spec (clock : Z) :
  sevenDaysAgo clock =
  if Z.abs clock <=? maxTime then
    if - maxTime <=? clock - sevenDays then Some (clock - sevenDays) else None
  else None.
Proof.
  unfold sevenDaysAgo, new_Date_now, new_Date_number.
  rewrite (TimeClip_num clock).
  destruct (Z.leb_spec (Z.abs clock) maxTime) as [Hc|Hc]; [|reflexivity].
  unfold getTime, option_map, sub, num.
  assert (E : (round (inject_Z clock - inject_Z (7 * 24 * 60 * 60 * 1000))
               == inject_Z (clock - sevenDays))%Q).
  { assert (E0 : (inject_Z clock - inject_Z (7 * 24 * 60 * 60 * 1000)
                  == inject_Z (clock - sevenDays))%Q).
    { unfold Z.sub. rewrite inject_Z_plus, inject_Z_opp. reflexivity. }
    rewrite (round_Qeq _ _ E0). apply round_integer.
    unfold maxTime, sevenDays in *. lia. }
  rewrite (TimeClip_Qeq _ _ E), (TimeClip_num (clock - sevenDays)).
  destruct (Z.leb_spec (Z.abs (clock - sevenDays)) maxTime);
    destruct (Z.leb_spec (- maxTime) (clock - sevenDays));
    try reflexivity; unfold maxTime, sevenDays in *; lia.
Qed.

Section WithParser.

Variable Date_parse : string -> Number.

(** The filter of [fetchRequests] keeps the requests created strictly more
    than seven days before the clock reading. *)
Lemma olderThanSevenDays_iff (clock : Z) (req : ReceivedRequest) :
  olderThanSevenDays Date_parse clock req = true <->
  moreThanSevenDaysBetween (new_Date_string Date_parse (created_at req))
                           (new_Date_now clock).
Proof.
  unfold olderThanSevenDays, moreThanSevenDaysBetween, Date_lt.
  rewrite sevenDaysAgo_spec. unfold new_Date_now. rewrite TimeClip_num.
  unfold new_Date_string.
  destruct (TimeClip (Date_parse (created_at req))) as [t|] eqn:Et.
  2:{ simpl. split; [discriminate|]. intros (t & n & H & _). discriminate. }
  apply TimeClip_range in Et.
  destruct (Z.leb_spec (Z.abs clock) maxTime) as [Hc|Hc].
  2:{ simpl. split; [discriminate|]. intros (t' & n & _ & H & _). discriminate. }
  destruct (Z.leb_spec (- maxTime) (clock - sevenDays)) as [Hs|Hs].
  - simpl. rewrite Qlt_bool_iff, <- Zlt_Qlt. split.
    + intro H. exists t, clock. repeat split; trivial. lia.
    + intros (t' & n & [= <-] & [= <-] & H). lia.
  - simpl. split; [discriminate|].
    intros (t' & n & [= <-] & [= <-] & H). lia.
Qed.

(** [isOverdue] holds of the dates lying strictly more than seven days
    before the clock reading. *)
Lemma isOverdue_iff (clock : Z) (dateString : string) :
  isOverdue Date_parse clock dateString = true <->
  moreThanSevenDaysBetween (new_Date_string Date_parse dateString)
                           (new_Date_now clock).
Proof.
  unfold isOverdue, moreThanSevenDaysBetween.
  destruct (new_Date_string Date_parse dateString) as [t|].
  2:{ destruct (new_Date_now clock); simpl;
      (split; [discriminate|]); intros (t & n & H & _); discriminate. }
  destruct (new_Date_now clock) as [n|].
  2:{ simpl. split; [discriminate|]. intros (t' & n & _ & H & _). discriminate. }
  change (getTime (Some n)) with (num n). change (getTime (Some t)) with (num t).
  rewrite daysDiff_gt_7, Z.ltb_lt. split.
  - intro H. now exists t, n.
  - intros (t' & n' & [= <-] & [= <-] & H). exact H.
Qed.

End WithParser.

End OverdueFacts.

(** ** The requests-received view: overdue requests *)

Module RequestsReceivedOverdue.
Import JS JSFacts Http RequestsReceived Properties OverdueFacts.
Local Open Scope string_scope.

(** Handlers are run by evaluation, on a state given field by field. *)
Ltac run :=
  cbv beta iota zeta delta
    [exec effects handle fetchRequests fetchRequests_begin
     fetchRequests_resume handleProcessRequest handleBulkProcess
     handleCheckboxChange handleSelectAll
     setRequests setLoading setError setSelectedIds setShowOverdueAlert
     setOverdueRequests bind ret get modify emit fst snd app
     requests loading error selectedIds showOverdueAlert overdueRequests
     http_calls flat_map negb] in *.

Section WithEngine.

Variable Date_parse : string -> Number.

(** The state a successful fetch leaves. *)
Lemma fetchRequests_resolved (clock : Z) (payload : list ReceivedRequest)
    (st : State) :
  exec (fetchRequests Date_parse clock (Resolved payload)) st =
  let overdue := filter (olderThanSevenDays Date_parse clock) payload in
  {| requests := payload;
     loading := false;
     error := "";
     selectedIds := selectedIds st;
     showOverdueAlert :=
       match overdue with [] => showOverdueAlert st | _ :: _ => true end;
     overdueRequests :=
       match overdue with [] => overdueRequests st | _ :: _ => overdue end |}.
Proof.
  destruct st as [rq ld er sel sh od]. run.
  destruct (filter _ payload); reflexivity.
Qed.

(** C3. For every [created_at] string and every clock reading, the filter
    that builds the alert list in [fetchRequests] (created strictly before
    the clock reading minus 7*24*60*60*1000 ms) and the [isOverdue] test
    that highlights a row (elapsed milliseconds divided by 1000*60*60*24
    strictly greater than 7) give the same answer at the same clock
    reading. *)
Theorem C3_overdue_predicates_agree (clock : Z) (req : ReceivedRequest) :
  olderThanSevenDays Date_parse clock req =
  isOverdue Date_parse clock (created_at req).
Proof.
  pose proof (olderThanSevenDays_iff Date_parse clock req) as Hf.
  pose proof (isOverdue_iff Date_parse clock (created_at req)) as Hi.
  destruct (olderThanSevenDays Date_parse clock req) eqn:Ef;
    destruct (isOverdue Date_parse clock (created_at req)) eqn:Ei;
    try reflexivity.
  - assert (H : false = true) by (apply Hi, Hf; reflexivity). discriminate.
  - assert (H : false = true) by (apply Hf, Hi; reflexivity). discriminate.
Qed.

(** C1, as the code has it. For every request of a successfully fetched
    list, the request is in the overdue set the fetch computes exactly when
    strictly more than 7 days (7*24*60*60*1000 ms) lie between its
    [created_at] and the time of the fetch, and its row is highlighted
    exactly when strictly more than 7 days lie between its [created_at] and
    the time of rendering.  A non-empty overdue set becomes the alert list
    and raises the alert; an empty one leaves the alert list and the alert
    flag as they were.  So after the fetch the alert is shown exactly when
    the overdue set is non-empty or the alert was showing already. *)
Theorem C1_overdue_alert_after_fetch
    (clock : Z) (payload : list ReceivedRequest) (st : State) :
  let st' := exec (fetchRequests Date_parse clock (Resolved payload)) st in
  let overdue := filter (olderThanSevenDays Date_parse clock) payload in
  (forall req, In req payload ->
     (In req overdue <->
      moreThanSevenDaysBetween
        (new_Date_string Date_parse (created_at req)) (new_Date_now clock)))
  /\ (overdue <> [] ->
      overdueRequests st' = overdue /\ showOverdueAlert st' = true)
  /\ (overdue = [] ->
      overdueRequests st' = overdueRequests st /\
      showOverdueAlert st' = showOverdueAlert st)
  /\ (forall renderClock, exists p,
        render Date_parse renderClock st' = Rendered p
        /\ map row_request (rows p) = payload
        /\ (forall row, In row (rows p) ->
              (row_overdue row = true <->
               moreThanSevenDaysBetween
                 (new_Date_string Date_parse (created_at (row_request row)))
                 (new_Date_now renderClock)))
        /\ (overdue_modal p <> None <->
            overdue <> [] \/ showOverdueAlert st = true)
        /\ (overdue <> [] -> overdue_modal p = Some overdue)).
Proof.
  intros st' overdue. subst st'. rewrite fetchRequests_resolved.
  fold overdue. cbv zeta.
  split; [|split; [|split]].
  - intros req Hin. unfold overdue. rewrite filter_In.
    rewrite olderThanSevenDays_iff. tauto.
  - intro Hne. simpl. destruct overdue; [congruence|]. now split.
  - intro He. simpl. rewrite He. now split.
  - intro renderClock. unfold render. cbn [loading requests showOverdueAlert
      overdueRequests error selectedIds].
    eexists. split; [reflexivity|]. cbn [rows overdue_modal].
    split; [|split; [|split]].
    + rewrite map_map. cbn [row_request]. apply map_id.
    + intros row Hin. apply in_map_iff in Hin. destruct Hin as (r & <- & _).
      cbn [row_overdue row_request]. apply isOverdue_iff.
    + destruct overdue as [|o os]; [destruct (showOverdueAlert st)|].
      * split; [intros _; right; reflexivity | discriminate].
      * split; [intro H; exfalso; apply H; reflexivity |].
        intros [H|H]; [exfalso; apply H; reflexivity | discriminate].
      * split; [intros _; left; discriminate | discriminate].
    + intro Hne. destruct overdue; [congruence|reflexivity].
Qed.

End WithEngine.

End RequestsReceivedOverdue.

(** ** The requests-received view: selection and processing *)

Module RequestsReceivedHandlers.
Import JS Http RequestsReceived Properties.
Import RequestsReceivedOverdue.
Local Open Scope string_scope.

Lemma includes_true_iff (l : list Z) (x : Z) : includes l x = true <-> In x l.
Proof.
  unfold includes. rewrite existsb_exists. split.
  - intros (y & Hy & E). apply Z.eqb_eq in E. now subst.
  - intro H. exists x. split; [exact H | apply Z.eqb_refl].
Qed.

Lemma includes_false_iff (l : list Z) (x : Z) :
  includes l x = false <-> ~ In x l.
Proof.
  rewrite <- includes_true_iff. destruct (includes l x); split; congruence.
Qed.

Lemma In_toggle (x y : Z) (l : list Z) :
  In y (toggle x l) <-> (y = x /\ ~ In x l) \/ (y <> x /\ In y l).
Proof.
  unfold toggle. destruct (includes l x) eqn:E.
  - apply includes_true_iff in E. rewrite filter_In, negb_true_iff, Z.eqb_neq.
    split.
    + intros [H1 H2]. right. now split.
    + intros [[-> H]|[H1 H2]]; [contradiction | now split].
  - apply includes_false_iff in E. rewrite in_app_iff. simpl. split.
    + intros [H|[<-|[]]].
      * right. split; [|exact H]. intros ->. contradiction.
      * left. now split.
    + intros [[-> _]|[_ H]]; [right; now left | now left].
Qed.

Lemma NoDup_toggle (x : Z) (l : list Z) : NoDup l -> NoDup (toggle x l).
Proof.
  intro H. unfold toggle. destruct (includes l x) eqn:E.
  - now apply NoDup_filter.
  - apply includes_false_iff in E.
    apply NoDup_app; [exact H | repeat constructor; intros [] |].
    intros y Hy [<-|[]]. contradiction.
Qed.

(** C8. [handleCheckboxChange id] only rewrites the selection, and flips the
    membership of exactly [id] in it: if [id] is selected every occurrence
    of it is removed, otherwise it is appended at the end; no other id
    enters or leaves.  On a duplicate-free selection, two changes in a row
    give back a selection with the members of the original (and without
    duplicates). *)
Theorem C8_checkbox_toggles_membership (id : Z) (st : State) :
  let st' := exec (handleCheckboxChange id) st in
  let prev := selectedIds st in
  effects (handleCheckboxChange id) st = []
  /\ st' = {| requests := requests st; loading := loading st;
              error := error st; selectedIds := toggle id prev;
              showOverdueAlert := showOverdueAlert st;
              overdueRequests := overdueRequests st |}
  /\ (In id prev ->
      selectedIds st' = filter (fun i => negb (Z.eqb i id)) prev
      /\ count_occ Z.eq_dec (selectedIds st') id = 0%nat)
  /\ (~ In id prev -> selectedIds st' = (prev ++ [id])%list)
  /\ (In id (selectedIds st') <-> ~ In id prev)
  /\ (forall other, other <> id ->
        (In other (selectedIds st') <-> In other prev))
  /\ (NoDup prev ->
      let st'' := exec (handleCheckboxChange id) st' in
      NoDup (selectedIds st'')
      /\ forall i, In i (selectedIds st'') <-> In i prev).
Proof.
  destruct st as [rq ld er prev sh od]. run.
  split; [reflexivity|]. split; [reflexivity|].
  split; [|split; [|split; [|split]]].
  - intro Hin. assert (E : toggle id prev = filter (fun i => negb (Z.eqb i id)) prev).
    { unfold toggle. apply includes_true_iff in Hin. now rewrite Hin. }
    split; [exact E|]. apply count_occ_not_In. rewrite In_toggle.
    intros [[_ H]|[H _]]; [contradiction | congruence].
  - intro Hn. unfold toggle. apply includes_false_iff in Hn. now rewrite Hn.
  - rewrite In_toggle. split.
    + intros [[_ H]|[H _]]; [exact H | congruence].
    + intro H. left. now split.
  - intros other Hne. rewrite In_toggle. split.
    + intros [[E _]|[_ H]]; [congruence | exact H].
    + intro H. right. now split.
  - intro Hnd. split.
    + now apply NoDup_toggle, NoDup_toggle.
    + intro i. rewrite !In_toggle.
      destruct (Z.eq_dec i id) as [->|Hne];
        destruct (in_dec Z.eq_dec id prev) as [Hin|Hin]; tauto.
Qed.

(** C9. After [handleSelectAll] the selection is empty if it was as long as
    the list of displayed requests, and otherwise it is the ids of all the
    displayed requests in table order; either way it is all or nothing of
    what is displayed, and nothing else changes. *)
Theorem C9_select_all_is_all_or_nothing (st : State) :
  let st' := exec handleSelectAll st in
  effects handleSelectAll st = []
  /\ selectedIds st' =
     (if Nat.eqb (List.length (selectedIds st)) (List.length (requests st))
      then [] else map id (requests st))
  /\ (selectedIds st' = [] \/ selectedIds st' = map id (requests st))
  /\ requests st' = requests st
  /\ loading st' = loading st
  /\ error st' = error st
  /\ showOverdueAlert st' = showOverdueAlert st
  /\ overdueRequests st' = overdueRequests st.
Proof.
  destruct st as [rq ld er sel sh od]. run.
  destruct (Nat.eqb (List.length sel) (List.length rq));
    repeat split; auto.
Qed.

Section WithEngine.

Variable Date_parse : string -> Number.

Lemma http_calls_fetchRequests clock res st :
  http_calls (effects (fetchRequests Date_parse clock res) st) =
  [api_get "/requests/received"].
Proof.
  destruct st as [rq ld er sel sh od].
  destruct res as [payload|err]; run;
    try destruct (Nat.ltb 0 _); reflexivity.
Qed.

(** The calls of the two processing handlers. *)
Lemma calls_handleProcessRequest id action posted clock res st :
  http_calls
    (effects (handleProcessRequest Date_parse id action posted clock res) st)
  = api_post ("/requests/" ++ Number_toString id ++ "/process")
             (ProcessBody action)
    :: match posted with
       | Resolved _ => [api_get "/requests/received"]
       | Rejected _ => []
       end.
Proof.
  destruct st as [rq ld er sel sh od].
  destruct posted as [u|err]; [|reflexivity].
  destruct res as [payload|e]; run;
    try destruct (Nat.ltb 0 _); reflexivity.
Qed.

Lemma calls_handleBulkProcess action confirmed posted clock res st :
  http_calls
    (effects (handleBulkProcess Date_parse action confirmed posted clock res)
             st)
  = match selectedIds st with
    | [] => []
    | _ :: _ =>
        if confirmed
        then api_post "/requests/bulk-process"
                      (BulkProcessBody (selectedIds st) action)
             :: match posted with
                | Resolved _ => [api_get "/requests/received"]
                | Rejected _ => []
                end
        else []
    end.
Proof.
  destruct st as [rq ld er sel sh od].
  destruct sel as [|i sel]; [reflexivity|].
  destruct confirmed; [|reflexivity].
  destruct posted as [p|err]; [|reflexivity].
  destruct res as [payload|e]; run;
    try destruct (Nat.ltb 0 _); reflexivity.
Qed.

(** The error state after the fetch and the two processing handlers. *)
Lemma error_fetchRequests clock res st :
  error (exec (fetchRequests Date_parse clock res) st) =
  match res with
  | Resolved _ => ""
  | Rejected err =>
      or_else (response_data_message err) "Failed to fetch requests"
  end.
Proof.
  destruct st as [rq ld er sel sh od].
  destruct res as [payload|e]; run;
    try destruct (Nat.ltb 0 _); reflexivity.
Qed.

Lemma error_handleProcessRequest id action posted clock res st :
  error (exec (handleProcessRequest Date_parse id action posted clock res)
              st) =
  match posted with
  | Resolved _ => error (exec (fetchRequests Date_parse clock res) st)
  | Rejected err =>
      or_else (response_data_message err)
        (match action with
         | ACCEPT => "Failed to accept request"
         | REJECT => "Failed to reject request"
         end)
  end.
Proof.
  destruct st as [rq ld er sel sh od].
  destruct posted as [u|err]; [|destruct action; reflexivity].
  destruct res as [payload|e]; run;
    try destruct (Nat.ltb 0 _); reflexivity.
Qed.

Lemma error_handleBulkProcess action posted clock res st :
  selectedIds st <> [] ->
  error (exec (handleBulkProcess Date_parse action true posted clock res)
              st) =
  match posted with
  | Resolved _ => error (exec (fetchRequests Date_parse clock res) st)
  | Rejected err =>
      or_else (response_data_message err) "Failed to process requests"
  end.
Proof.
  destruct st as [rq ld er sel sh od]. intro Hsel.
  destruct sel as [|i sel]; [exfalso; apply Hsel; reflexivity|].
  destruct posted as [p|err]; [|reflexivity].
  destruct res as [payload|e]; run;
    try destruct (Nat.ltb 0 _); reflexivity.
Qed.

(** C5. For every request id and either action, [handleProcessRequest]
    issues exactly one POST, to [/requests/{id}/process] with body
    [{action}]; [handleBulkProcess], on a non-empty selection and an
    accepted confirmation, issues exactly one POST, to
    [/requests/bulk-process] with body [{requestIds: selectedIds, action}].
    When the POST succeeds each of them refetches the received requests
    (one GET of [/requests/received], whose answer the state then reflects
    as after [fetchRequests]) and leaves the selection empty; when it fails
    no other call is made. *)
Theorem C5_process_requests_post :
  (forall (id : Z) (action : Action) (posted : Result unit)
          (clock : Z) (res : Result (list ReceivedRequest)) (st : State),
     let m := handleProcessRequest Date_parse id action posted clock res in
     let post := api_post ("/requests/" ++ Number_toString id ++ "/process")
                          (ProcessBody action) in
     posts (http_calls (effects m st)) = [post]
     /\ http_calls (effects m st) =
        post :: match posted with
                | Resolved _ => [api_get "/requests/received"]
                | Rejected _ => []
                end
     /\ (forall u, posted = Resolved u ->
           selectedIds (exec m st) = []
           /\ exec m st =
              exec (fetchRequests Date_parse clock res)
                   (exec (setSelectedIds (fun _ => [])) st)))
  /\ (forall (action : Action) (posted : Result BulkResults)
             (clock : Z) (res : Result (list ReceivedRequest)) (st : State),
        selectedIds st <> [] ->
        let m := handleBulkProcess Date_parse action true posted clock res in
        let post := api_post "/requests/bulk-process"
                             (BulkProcessBody (selectedIds st) action) in
        posts (http_calls (effects m st)) = [post]
        /\ http_calls (effects m st) =
           post :: match posted with
                   | Resolved _ => [api_get "/requests/received"]
                   | Rejected _ => []
                   end
        /\ (forall payload, posted = Resolved payload ->
              selectedIds (exec m st) = []
              /\ exec m st =
                 exec (fetchRequests Date_parse clock res)
                      (exec (setSelectedIds (fun _ => [])) st))).
Proof.
  split.
  - intros id action posted clock res st.
    destruct st as [rq ld er sel sh od].
    destruct posted as [u|err]; [|run; repeat split; discriminate].
    destruct res as [payload|e]; run;
      try destruct (Nat.ltb 0 _); repeat split; reflexivity.
  - intros action posted clock res st Hsel.
    destruct st as [rq ld er sel sh od].
    destruct sel as [|i sel]; [exfalso; apply Hsel; reflexivity|].
    destruct posted as [payload|err]; [|run; repeat split; discriminate].
    destruct res as [p|e]; run;
      try destruct (Nat.ltb 0 _); repeat split; reflexivity.
Qed.

(** C10. On an empty selection [handleBulkProcess] issues no API call and
    leaves the whole component state as it was; so it does when the user
    declines the confirmation. *)
Theorem C10_bulk_process_frame
    (action : Action) (confirmed : bool) (posted : Result BulkResults)
    (clock : Z) (res : Result (list ReceivedRequest)) (st : State) :
  let m := handleBulkProcess Date_parse action confirmed posted clock res in
  (selectedIds st = [] ->
     http_calls (effects m st) = [] /\ exec m st = st)
  /\ (confirmed = false ->
      http_calls (effects m st) = [] /\ exec m st = st).
Proof.
  destruct st as [rq ld er sel sh od]. split.
  - intro E. run. subst sel. split; reflexivity.
  - intros ->. destruct sel; run; split; reflexivity.
Qed.

End WithEngine.

End RequestsReceivedHandlers.

(** ** The dashboard view: fetching and submitting *)

Module DashboardHandlers.
Import JS Http Dashboard Properties.
Local Open Scope string_scope.

Ltac run :=
  cbv beta iota zeta delta
    [exec effects handle fetchData fetchData_begin fetchData_resume
     resetForm handleCreateRequest handleUpdateRequest handleDeleteRequest
     handleEditClick toggleForm handleSubmit handleFieldChange
     setBalance setRequests setCompanies setLoading setError
     setShowRequestForm setEditingRequest setFormData
     bind ret get modify emit fst snd app
     balance requests companies loading error showRequestForm
     editingRequest formData http_calls flat_map negb] in *.

(** [fetchData] is run by cases on what [Promise.all] gives. *)
Ltac run_fetch a :=
  let P := fresh "P" in
  destruct (Promise_all (settled a) (balanceRes a) (requestsRes a)
                        (companiesRes a)) as [[[? ?] ?]|?] eqn:P;
  run; rewrite ?P.

Lemma first_settled_In (order : list nat) (first : nat * AxiosError)
    (others : list (nat * AxiosError)) :
  In (first_settled order first others) (map snd (first :: others)).
Proof.
  induction order as [|i order IH]; [now left|].
  cbn [first_settled].
  destruct (find _ (first :: others)) as [p|] eqn:E; [|exact IH].
  apply find_some in E. apply in_map. exact (proj1 E).
Qed.

(** [Promise.all] resolves exactly when its three calls do, and otherwise
    rejects with the reason of one of the calls that rejected. *)
Lemma Promise_all_spec (a : Answers) :
  match Promise_all (settled a) (balanceRes a) (requestsRes a)
                    (companiesRes a) with
  | Resolved (b, r, c) =>
      balanceRes a = Resolved b /\ requestsRes a = Resolved r /\
      companiesRes a = Resolved c
  | Rejected err => In err (rejections a) /\ ~ allResolved a
  end.
Proof.
  unfold rejections, allResolved.
  destruct (balanceRes a) as [b|e1] eqn:E1;
    destruct (requestsRes a) as [r|e2] eqn:E2;
    destruct (companiesRes a) as [c|e3] eqn:E3;
    cbn [Promise_all]; try (repeat split; reflexivity);
    (split; [| intros (b' & r' & c' & H1 & H2 & H3); discriminate]).
  - now left.
  - apply (first_settled_In _ (1%nat, e2) []).
  - apply (first_settled_In _ (1%nat, e2) [(2%nat, e3)]).
  - apply (first_settled_In _ (0%nat, e1) []).
  - apply (first_settled_In _ (0%nat, e1) [(2%nat, e3)]).
  - apply (first_settled_In _ (0%nat, e1) [(1%nat, e2)]).
  - apply (first_settled_In _ (0%nat, e1) [(1%nat, e2); (2%nat, e3)]).
Qed.

(** [v || fallback] is never the empty string when [fallback] is not. *)
Lemma or_else_nonempty (v : option string) (fallback : string) :
  fallback <> "" -> or_else v fallback <> "".
Proof.
  intro H. unfold or_else. destruct v as [[|c s]|]; cbn; try exact H.
  discriminate.
Qed.

Lemma effects_fetchData (a : Answers) (st : State) :
  effects (fetchData a) st =
  [Http (api_get "/company/balance"); Http (api_get "/requests/made");
   Http (api_get "/company/list")].
Proof.
  destruct st as [bl rq cs ld er sf ed fd].
  run_fetch a; reflexivity.
Qed.

Lemma exec_fetchData (a : Answers) (st : State) :
  exec (fetchData a) st =
  match Promise_all (settled a) (balanceRes a) (requestsRes a)
                    (companiesRes a) with
  | Resolved (b, r, c) =>
      {| balance := Some b; requests := r; companies := c;
         loading := false; error := "";
         showRequestForm := showRequestForm st;
         editingRequest := editingRequest st; formData := formData st |}
  | Rejected err =>
      {| balance := balance st; requests := requests st;
         companies := companies st; loading := false;
         error := or_else (response_data_message err) "Failed to fetch data";
         showRequestForm := showRequestForm st;
         editingRequest := editingRequest st; formData := formData st |}
  end.
Proof.
  destruct st as [bl rq cs ld er sf ed fd].
  run_fetch a; reflexivity.
Qed.

(** C6, as the code has it. [fetchData] issues exactly three calls, GETs of
    [/company/balance], [/requests/made] and [/company/list], all of them
    before any answer is looked at.  When all three succeed their bodies
    become the balance, the requests and the companies and the error is
    cleared; when any of them fails none of these three is updated and the
    error is set (to a non-empty text, so the error is empty exactly when
    all three succeeded).  Either way the loading flag ends false, and
    nothing else changes. *)
Theorem C6_fetchData_all_or_nothing (a : Answers) (st : State) :
  let st' := exec (fetchData a) st in
  effects (fetchData a) st =
    [Http (api_get "/company/balance"); Http (api_get "/requests/made");
     Http (api_get "/company/list")]
  /\ (forall b r c,
        balanceRes a = Resolved b -> requestsRes a = Resolved r ->
        companiesRes a = Resolved c ->
        st' = {| balance := Some b; requests := r; companies := c;
                 loading := false; error := "";
                 showRequestForm := showRequestForm st;
                 editingRequest := editingRequest st;
                 formData := formData st |})
  /\ (~ allResolved a ->
      exists err,
        In err (rejections a)
        /\ st' = {| balance := balance st; requests := requests st;
                    companies := companies st; loading := false;
                    error := or_else (response_data_message err)
                               "Failed to fetch data";
                    showRequestForm := showRequestForm st;
                    editingRequest := editingRequest st;
                    formData := formData st |})
  /\ (error st' = "" <-> allResolved a).
Proof.
  intro st'. subst st'. rewrite exec_fetchData.
  pose proof (Promise_all_spec a) as Hp.
  destruct (Promise_all _ _ _ _) as [[[b r] c]|err].
  - destruct Hp as (Hb & Hr & Hc).
    split; [apply effects_fetchData|]. split; [|split].
    + intros b' r' c' Hb' Hr' Hc'. congruence.
    + intro Hn. exfalso. apply Hn. now exists b, r, c.
    + split; [intros _; now exists b, r, c | reflexivity].
  - destruct Hp as (Hin & Hn).
    split; [apply effects_fetchData|]. split; [|split].
    + intros b' r' c' Hb' Hr' Hc'. exfalso. apply Hn. now exists b', r', c'.
    + intros _. exists err. now split.
    + cbn [error]. split; [|contradiction].
      intro E. exfalso. revert E. apply or_else_nonempty. discriminate.
Qed.

Lemma first_settled_first (pre : list nat) (i : nat) (post : list nat)
    (first : nat * AxiosError) (others : list (nat * AxiosError)) (e : AxiosError) :
  (forall j, In j pre -> ~ In j (map fst (first :: others))) ->
  find (fun p => Nat.eqb (fst p) i) (first :: others) = Some (i, e) ->
  first_settled (pre ++ i :: post)%list first others = e.
Proof.
  intros Hpre Hi. induction pre as [|j pre IH]; cbn [app first_settled].
  - now rewrite Hi.
  - destruct (find (fun p => Nat.eqb (fst p) j) (first :: others)) as [p|] eqn:E.
    + apply find_some in E. destruct E as [Hin Hj]. apply Nat.eqb_eq in Hj.
      exfalso. apply (Hpre j); [now left|]. rewrite <- Hj. now apply in_map.
    + apply IH. intros k Hk. apply Hpre. now right.
Qed.

(** Among the calls that reject, the one that settles first gives
    [Promise.all] its reason. *)
Lemma Promise_all_first (a : Answers) (pre : list nat) (i : nat)
    (post : list nat) (e : AxiosError) :
  settled a = (pre ++ i :: post)%list ->
  (forall j, In j pre -> rejectedAt a j = None) ->
  rejectedAt a i = Some e ->
  Promise_all (settled a) (balanceRes a) (requestsRes a) (companiesRes a)
  = Rejected e.
Proof.
  intros -> Hpre Hi.
  assert (H0 : forall x, rejectedAt a 0 = Some x -> ~ In 0%nat pre).
  { intros x Hx Hin. apply Hpre in Hin. congruence. }
  assert (H1 : forall x, rejectedAt a 1 = Some x -> ~ In 1%nat pre).
  { intros x Hx Hin. apply Hpre in Hin. congruence. }
  assert (H2 : forall x, rejectedAt a 2 = Some x -> ~ In 2%nat pre).
  { intros x Hx Hin. apply Hpre in Hin. congruence. }
  destruct i as [|[|[|i]]]; cbn [rejectedAt] in *; try discriminate;
    destruct (balanceRes a) as [b|e1];
    destruct (requestsRes a) as [r|e2];
    destruct (companiesRes a) as [c|e3];
    try discriminate; injection Hi as <-; cbn [Promise_all rejection app];
    try reflexivity; f_equal;
    apply first_settled_first; try reflexivity;
    intros j Hj [<-|Hin]; cbn [fst] in *;
    try (eapply H0; [reflexivity | exact Hj]);
    try (eapply H1; [reflexivity | exact Hj]);
    try (eapply H2; [reflexivity | exact Hj]);
    cbn [map fst In] in Hin;
    repeat (destruct Hin as [<-|Hin]);
    try contradiction;
    try (eapply H0; [reflexivity | exact Hj]);
    try (eapply H1; [reflexivity | exact Hj]);
    try (eapply H2; [reflexivity | exact Hj]).
Qed.

Section WithEngine.

Variable parseInt : string -> Number.
Variable parseFloat : string -> Number.
Variable toString : Number -> string.

(** The calls of the handlers that talk to the backend. *)
Lemma calls_fetchData a st :
  http_calls (effects (fetchData a) st) =
  [api_get "/company/balance"; api_get "/requests/made";
   api_get "/company/list"].
Proof. rewrite effects_fetchData. reflexivity. Qed.

Lemma calls_handleCreateRequest posted a st :
  http_calls (effects (handleCreateRequest parseInt parseFloat posted a) st) =
  api_post "/requests" (requestBody parseInt parseFloat (formData st))
  :: match posted with
     | Resolved _ => http_calls (effects (fetchData a) st)
     | Rejected _ => []
     end.
Proof.
  destruct st as [bl rq cs ld er sf ed fd].
  destruct posted as [u|err]; [|reflexivity].
  run_fetch a; reflexivity.
Qed.

Lemma calls_handleUpdateRequest answered a st :
  http_calls (effects (handleUpdateRequest parseInt parseFloat answered a) st) =
  match editingRequest st with
  | None => []
  | Some editing =>
      api_put ("/requests/" ++ Number_toString (id editing))
              (requestBody parseInt parseFloat (formData st))
      :: match answered with
         | Resolved _ => http_calls (effects (fetchData a) st)
         | Rejected _ => []
         end
  end.
Proof.
  destruct st as [bl rq cs ld er sf ed fd].
  destruct ed as [editing|]; [|reflexivity].
  destruct answered as [u|err]; [|reflexivity].
  run_fetch a; reflexivity.
Qed.

Lemma calls_handleDeleteRequest id confirmed deleted a st :
  http_calls (effects (handleDeleteRequest id confirmed deleted a) st) =
  if confirmed
  then api_delete ("/requests/" ++ Number_toString id)
       :: match deleted with
          | Resolved _ => http_calls (effects (fetchData a) st)
          | Rejected _ => []
          end
  else [].
Proof.
  destruct st as [bl rq cs ld er sf ed fd].
  destruct confirmed; [|reflexivity].
  destruct deleted as [u|err]; [|reflexivity].
  run_fetch a; reflexivity.
Qed.

(** The error state after them. *)
Lemma error_handleCreateRequest posted a st :
  error (exec (handleCreateRequest parseInt parseFloat posted a) st) =
  match posted with
  | Resolved _ => error (exec (fetchData a) st)
  | Rejected err =>
      or_else (response_data_message err) "Failed to create request"
  end.
Proof.
  destruct st as [bl rq cs ld er sf ed fd].
  destruct posted as [u|err]; [|reflexivity].
  run_fetch a; reflexivity.
Qed.

Lemma error_handleUpdateRequest answered a st editing :
  editingRequest st = Some editing ->
  error (exec (handleUpdateRequest parseInt parseFloat answered a) st) =
  match answered with
  | Resolved _ => error (exec (fetchData a) st)
  | Rejected err =>
      or_else (response_data_message err) "Failed to update request"
  end.
Proof.
  destruct st as [bl rq cs ld er sf ed fd]. cbn. intros ->.
  destruct answered as [u|err]; [|reflexivity].
  run_fetch a; reflexivity.
Qed.

Lemma error_handleDeleteRequest id deleted a st :
  error (exec (handleDeleteRequest id true deleted a) st) =
  match deleted with
  | Resolved _ => error (exec (fetchData a) st)
  | Rejected err =>
      or_else (response_data_message err) "Failed to delete request"
  end.
Proof.
  destruct st as [bl rq cs ld er sf ed fd].
  destruct deleted as [u|err]; [|reflexivity].
  run_fetch a; reflexivity.
Qed.

(** C7. On submission [handleCreateRequest] sends one POST to [/requests]
    whose body has [recipientId] the integer parse of the form's
    [recipientId], [price] and [quantity] the float parses of theirs and
    [reason] the raw [reason]; [handleUpdateRequest] sends the same body by
    PUT to [/requests/{id}] for the request being edited, and does nothing
    when none is.  On success each resets the form to its defaults, closes
    it and refetches the data. *)
Theorem C7_submit_sends_parsed_form :
  (forall (posted : Result unit) (a : Answers) (st : State),
     let m := handleCreateRequest parseInt parseFloat posted a in
     let f := formData st in
     let post :=
       api_post "/requests"
         (RequestBody (parseInt (FormData.recipientId f)) (FormData.type f)
                      (parseFloat (FormData.price f))
                      (parseFloat (FormData.quantity f))
                      (FormData.reason f)) in
     http_calls (effects m st) =
       post :: match posted with
               | Resolved _ => http_calls (effects (fetchData a) st)
               | Rejected _ => []
               end
     /\ (forall u, posted = Resolved u ->
           exec m st = exec (fetchData a) (exec resetForm st)
           /\ formData (exec m st) = emptyForm
           /\ showRequestForm (exec m st) = false
           /\ editingRequest (exec m st) = None))
  /\ (forall (answered : Result unit) (a : Answers) (st : State)
             (editing : Request),
        editingRequest st = Some editing ->
        let m := handleUpdateRequest parseInt parseFloat answered a in
        let f := formData st in
        let put :=
          api_put ("/requests/" ++ Number_toString (id editing))
            (RequestBody (parseInt (FormData.recipientId f)) (FormData.type f)
                         (parseFloat (FormData.price f))
                         (parseFloat (FormData.quantity f))
                         (FormData.reason f)) in
        http_calls (effects m st) =
          put :: match answered with
                 | Resolved _ => http_calls (effects (fetchData a) st)
                 | Rejected _ => []
                 end
        /\ (forall u, answered = Resolved u ->
              exec m st = exec (fetchData a) (exec resetForm st)
              /\ formData (exec m st) = emptyForm
              /\ showRequestForm (exec m st) = false
              /\ editingRequest (exec m st) = None))
  /\ (forall (answered : Result unit) (a : Answers) (st : State),
        editingRequest st = None ->
        let m := handleUpdateRequest parseInt parseFloat answered a in
        effects m st = [] /\ exec m st = st).
Proof.
  split; [|split].
  - intros posted a st. destruct st as [bl rq cs ld er sf ed fd].
    destruct posted as [u|err]; [|run; split; [reflexivity | discriminate]].
    run_fetch a; repeat split; reflexivity.
  - intros answered a st editing He. destruct st as [bl rq cs ld er sf ed fd].
    cbn in He. subst ed.
    destruct answered as [u|err]; [|run; split; [reflexivity | discriminate]].
    run_fetch a; repeat split; reflexivity.
  - intros answered a st He. destruct st as [bl rq cs ld er sf ed fd].
    cbn in He. subst ed. run. now split.
Qed.

End WithEngine.

End DashboardHandlers.

(** ** Both views: endpoints and the error banner *)

Module Views.
Import JS Http Properties.
Local Open Scope string_scope.

#[local] Hint Constructors Endpoint : core.

Lemma underRequests_append (s : string) :
  underRequests ("/requests/" ++ s) = true.
Proof. unfold underRequests. cbn. destruct s; reflexivity. Qed.

Lemma Endpoint_knownPath (c : HttpCall) :
  Endpoint c -> knownPath (url c) = true.
Proof.
  intros []; try reflexivity; cbn [url api_put api_delete api_post];
    unfold knownPath; rewrite underRequests_append; reflexivity.
Qed.

Lemma or_else_reports (err : AxiosError) (fallback : string) :
  reports err fallback (or_else (response_data_message err) fallback).
Proof.
  unfold reports, or_else.
  destruct (response_data_message err) as [[|c m]|]; cbn.
  - right. now split.
  - left. split; [discriminate | reflexivity].
  - reflexivity.
Qed.

Lemma receivedBanner_iff Date_parse clock (st : RequestsReceived.State) e :
  receivedBanner (RequestsReceived.render Date_parse clock st) = Some e <->
  e = RequestsReceived.error st /\ RequestsReceived.error st <> ""
  /\ RequestsReceived.loading st = false.
Proof.
  unfold RequestsReceived.render.
  destruct (RequestsReceived.loading st); cbn.
  - split; [discriminate | intros (_ & _ & H); discriminate].
  - destruct (RequestsReceived.error st) as [|c s]; cbn.
    + split; [discriminate | intros (_ & H & _); congruence].
    + split; [intros [= <-]; repeat split; discriminate |].
      intros (-> & _). reflexivity.
Qed.

Lemma dashboardBanner_iff (st : Dashboard.State) e :
  dashboardBanner (Dashboard.render st) = Some e <->
  e = Dashboard.error st /\ Dashboard.error st <> ""
  /\ Dashboard.loading st = false.
Proof.
  unfold Dashboard.render.
  destruct (Dashboard.loading st); cbn.
  - split; [discriminate | intros (_ & _ & H); discriminate].
  - destruct (Dashboard.error st) as [|c s]; cbn.
    + split; [discriminate | intros (_ & H & _); congruence].
    + split; [intros [= <-]; repeat split; discriminate |].
      intros (-> & _). reflexivity.
Qed.

Lemma create_calls_known parseInt parseFloat posted a st :
  Forall Endpoint
    (http_calls
       (effects (Dashboard.handleCreateRequest parseInt parseFloat posted a)
                st)).
Proof.
  rewrite DashboardHandlers.calls_handleCreateRequest.
  destruct posted; [rewrite DashboardHandlers.calls_fetchData|]; auto.
Qed.

Lemma update_calls_known parseInt parseFloat answered a st :
  Forall Endpoint
    (http_calls
       (effects (Dashboard.handleUpdateRequest parseInt parseFloat answered a)
                st)).
Proof.
  rewrite DashboardHandlers.calls_handleUpdateRequest.
  destruct (Dashboard.editingRequest st); [|auto].
  destruct answered; [rewrite DashboardHandlers.calls_fetchData|]; auto.
Qed.

(** C2, as the code has it. Every HTTP request the two components issue,
    whatever the event and the answers, is one of: GET [/company/balance],
    GET [/company/list], GET [/requests/made], GET [/requests/received],
    POST [/requests], PUT or DELETE [/requests/{id}], POST
    [/requests/{id}/process], POST [/requests/bulk-process]; so its path is
    [/company/balance], [/company/list] or lies under [/requests].  This
    holds of every event of either component, and of the two submit
    handlers also when called on their own. *)
Theorem C2_endpoints_called :
  (forall Date_parse (ev : RequestsReceived.Event)
          (st : RequestsReceived.State),
     Forall (fun c => Endpoint c /\ knownPath (url c) = true)
       (http_calls
          (effects (RequestsReceived.handle Date_parse ev) st)))
  /\ (forall parseInt parseFloat toString (ev : Dashboard.Event)
             (st : Dashboard.State),
        Forall (fun c => Endpoint c /\ knownPath (url c) = true)
          (http_calls
             (effects (Dashboard.handle parseInt parseFloat toString ev) st)))
  /\ (forall parseInt parseFloat posted a (st : Dashboard.State),
        Forall (fun c => Endpoint c /\ knownPath (url c) = true)
          (http_calls
             (effects (Dashboard.handleCreateRequest parseInt parseFloat
                         posted a) st))
        /\ Forall (fun c => Endpoint c /\ knownPath (url c) = true)
             (http_calls
                (effects (Dashboard.handleUpdateRequest parseInt parseFloat
                            posted a) st))).
Proof.
  assert (Hknown : forall l, Forall Endpoint l ->
            Forall (fun c => Endpoint c /\ knownPath (url c) = true) l).
  { intros l. apply Forall_impl. intros c H.
    split; [exact H | now apply Endpoint_knownPath]. }
  split; [|split].
  - intros Date_parse ev st. apply Hknown.
    destruct ev as [clock res | id action posted clock res
                   | action confirmed posted clock res | id | | | | ];
      cbn [RequestsReceived.handle]; try (now constructor).
    + rewrite RequestsReceivedHandlers.http_calls_fetchRequests. auto.
    + rewrite RequestsReceivedHandlers.calls_handleProcessRequest.
      destruct posted; auto.
    + rewrite RequestsReceivedHandlers.calls_handleBulkProcess.
      destruct (RequestsReceived.selectedIds st); [auto|].
      destruct confirmed; [|auto]. destruct posted; auto.
    + destruct st as [rq ld er sel sh od]. RequestsReceivedOverdue.run.
      destruct (Nat.eqb _ _); constructor.
  - intros parseInt parseFloat toString ev st. apply Hknown.
    destruct ev as [a | answered a | id confirmed deleted a | request
                   | | | field value | | ];
      cbn [Dashboard.handle]; try (now constructor).
    + rewrite DashboardHandlers.calls_fetchData. auto.
    + destruct st as [bl rq cs ld er sf ed fd].
      destruct ed as [editing|].
      * apply (update_calls_known parseInt parseFloat answered a
                 (Dashboard.Build_State bl rq cs ld er sf (Some editing) fd)).
      * apply (create_calls_known parseInt parseFloat answered a
                 (Dashboard.Build_State bl rq cs ld er sf None fd)).
    + rewrite DashboardHandlers.calls_handleDeleteRequest.
      destruct confirmed; [|auto].
      destruct deleted; [rewrite DashboardHandlers.calls_fetchData|]; auto.
  - intros parseInt parseFloat posted a st.
    split; apply Hknown;
      [apply create_calls_known | apply update_calls_known].
Qed.

(** C4, as the code has it. When a call fails, the error state is set to
    the [message] of the error response if there is one and it is not
    empty, and otherwise to the handler's own fallback text ("Failed to
    fetch requests", "Failed to accept request", "Failed to reject request",
    "Failed to process requests", "Failed to fetch data", "Failed to create
    request", "Failed to update request", "Failed to delete request"); of
    the three parallel calls of [fetchData] it is the first to reject that
    counts.  A successful data fetch sets the error state to the empty
    string, also as the refetch that follows a successful action.  The
    error banner is rendered, showing the error state, exactly when the
    error state is not empty and the component is not loading. *)
Theorem C4_error_state_and_banner :
  (forall Date_parse,
     (forall clock err st,
        reports err "Failed to fetch requests"
          (RequestsReceived.error
             (exec (RequestsReceived.fetchRequests Date_parse clock
                      (Rejected err)) st)))
     /\ (forall clock payload st,
           RequestsReceived.error
             (exec (RequestsReceived.fetchRequests Date_parse clock
                      (Resolved payload)) st) = "")
     /\ (forall id action err clock res st,
           reports err
             (match action with
              | ACCEPT => "Failed to accept request"
              | REJECT => "Failed to reject request"
              end)
             (RequestsReceived.error
                (exec (RequestsReceived.handleProcessRequest Date_parse
                         id action (Rejected err) clock res) st)))
     /\ (forall action err clock res st,
           RequestsReceived.selectedIds st <> [] ->
           reports err "Failed to process requests"
             (RequestsReceived.error
                (exec (RequestsReceived.handleBulkProcess Date_parse
                         action true (Rejected err) clock res) st)))
     /\ (forall id action u clock res st,
           RequestsReceived.error
             (exec (RequestsReceived.handleProcessRequest Date_parse
                      id action (Resolved u) clock res) st)
           = RequestsReceived.error
               (exec (RequestsReceived.fetchRequests Date_parse clock res)
                     st))
     /\ (forall action payload clock res st,
           RequestsReceived.selectedIds st <> [] ->
           RequestsReceived.error
             (exec (RequestsReceived.handleBulkProcess Date_parse
                      action true (Resolved payload) clock res) st)
           = RequestsReceived.error
               (exec (RequestsReceived.fetchRequests Date_parse clock res)
                     st))
     /\ (forall clock st e,
           receivedBanner (RequestsReceived.render Date_parse clock st)
           = Some e <->
           e = RequestsReceived.error st /\ RequestsReceived.error st <> ""
           /\ RequestsReceived.loading st = false))
  /\ (forall parseInt parseFloat,
        (forall a st,
           allResolved a ->
           Dashboard.error (exec (Dashboard.fetchData a) st) = "")
        /\ (forall a st pre i post err,
              Dashboard.settled a = (pre ++ i :: post)%list ->
              (forall j, In j pre -> rejectedAt a j = None) ->
              rejectedAt a i = Some err ->
              reports err "Failed to fetch data"
                (Dashboard.error (exec (Dashboard.fetchData a) st)))
        /\ (forall err a st,
              reports err "Failed to create request"
                (Dashboard.error
                   (exec (Dashboard.handleCreateRequest parseInt parseFloat
                            (Rejected err) a) st)))
        /\ (forall err a st editing,
              Dashboard.editingRequest st = Some editing ->
              reports err "Failed to update request"
                (Dashboard.error
                   (exec (Dashboard.handleUpdateRequest parseInt parseFloat
                            (Rejected err) a) st)))
        /\ (forall id err a st,
              reports err "Failed to delete request"
                (Dashboard.error
                   (exec (Dashboard.handleDeleteRequest id true
                            (Rejected err) a) st)))
        /\ (forall u a st,
              Dashboard.error
                (exec (Dashboard.handleCreateRequest parseInt parseFloat
                         (Resolved u) a) st)
              = Dashboard.error (exec (Dashboard.fetchData a) st))
        /\ (forall u a st editing,
              Dashboard.editingRequest st = Some editing ->
              Dashboard.error
                (exec (Dashboard.handleUpdateRequest parseInt parseFloat
                         (Resolved u) a) st)
              = Dashboard.error (exec (Dashboard.fetchData a) st))
        /\ (forall id u a st,
              Dashboard.error
                (exec (Dashboard.handleDeleteRequest id true (Resolved u) a)
                      st)
              = Dashboard.error (exec (Dashboard.fetchData a) st))
        /\ (forall st e,
              dashboardBanner (Dashboard.render st) = Some e <->
              e = Dashboard.error st /\ Dashboard.error st <> ""
              /\ Dashboard.loading st = false)).
Proof.
  split.
  - intros Date_parse. repeat apply conj.
    + intros. rewrite RequestsReceivedHandlers.error_fetchRequests.
      apply or_else_reports.
    + intros. now rewrite RequestsReceivedHandlers.error_fetchRequests.
    + intros. rewrite RequestsReceivedHandlers.error_handleProcessRequest.
      apply or_else_reports.
    + intros action err clock res st Hsel.
      rewrite RequestsReceivedHandlers.error_handleBulkProcess by exact Hsel.
      apply or_else_reports.
    + intros. now rewrite RequestsReceivedHandlers.error_handleProcessRequest.
    + intros action payload clock res st Hsel.
      now rewrite RequestsReceivedHandlers.error_handleBulkProcess.
    + intros. apply receivedBanner_iff.
  - intros parseInt parseFloat. repeat apply conj.
    + intros a st (b & r & c & Hb & Hr & Hc).
      rewrite DashboardHandlers.exec_fetchData, Hb, Hr, Hc. reflexivity.
    + intros a st pre i post err Hs Hpre Hi.
      rewrite DashboardHandlers.exec_fetchData.
      rewrite (DashboardHandlers.Promise_all_first a pre i post err Hs Hpre Hi).
      apply or_else_reports.
    + intros. rewrite DashboardHandlers.error_handleCreateRequest.
      apply or_else_reports.
    + intros err a st editing He.
      rewrite (DashboardHandlers.error_handleUpdateRequest _ _ _ _ _ _ He).
      apply or_else_reports.
    + intros. rewrite DashboardHandlers.error_handleDeleteRequest.
      apply or_else_reports.
    + intros. now rewrite DashboardHandlers.error_handleCreateRequest.
    + intros u a st editing He.
      now rewrite (DashboardHandlers.error_handleUpdateRequest _ _ _ _ _ _ He).
    + intros. now rewrite DashboardHandlers.error_handleDeleteRequest.
    + intros. apply dashboardBanner_iff.
Qed.

End Views.

(** ** The theorems at the sample inputs, and where the specification as
    written fails *)

Module Checks.
Import JS Http Engine Properties Samples.
Import OverdueFacts RequestsReceivedOverdue RequestsReceivedHandlers.
Import DashboardHandlers Views.
Local Open Scope string_scope.

Example Date_parse_2024 :
  Engine.Date_parse "2024-01-01T00:00:00.000Z" = num 1704067200000.
Proof. reflexivity. Qed.

Example Date_parse_word : Engine.Date_parse "last week" = NaN.
Proof. reflexivity. Qed.

Example process_path :
  http_calls
    (effects (RequestsReceived.handleProcessRequest Engine.Date_parse 42
                ACCEPT (Rejected networkError) clock1 (Resolved []))
             (selecting []))
  = [api_post "/requests/42/process" (ProcessBody ACCEPT)].
Proof. reflexivity. Qed.

(** [round] on ties, on a decimal fraction and among the subnormal
    numbers; and [round] and the arithmetic against the Standard Library's
    binary64. *)
Example round_ties_to_even :
  (round (inject_Z (2 ^ 53 + 1)) == inject_Z (2 ^ 53))%Q
  /\ (round (inject_Z (2 ^ 53 + 3)) == inject_Z (2 ^ 53 + 4))%Q
  /\ (round (1 # 10) == 3602879701896397 # 36028797018963968)%Q
  /\ (round (inject_Z 3 * 2 ^ (-1075)) == inject_Z 2 * 2 ^ (-1074))%Q.
Proof. repeat split; vm_compute; reflexivity. Qed.

Example round_as_binary64 :
  forallb (fun p => quotientAgrees (fst p) (snd p))
    [(604800001, 86400000); (604800000, 86400000); (604799999, 86400000);
     (17280000000000000, 86400000); (1, 86400000); (-604800001, 86400000);
     (1, 3); (2, 3); (-7, 10); (1, 9007199254740991)] = true
  /\ forallb (fun p => differenceAgrees (fst p) (snd p))
       [(8640000000000000, -8640000000000000);
        (8640000000000000, -8639999999999999);
        (-8640000000000000, 8639999999999997);
        (1706745600000, 1704067200000)] = true
  /\ forallb (fun p => roundingAgrees (fst p) (snd p))
       [(1, -1074); (1, -1075); (3, -1075); (5, -1076); (7, -1077);
        (9007199254740993, 0); (9007199254740995, 0);
        (9007199254740993, -1074); (9007199254740993, -1080); (1, 1000)]
     = true.
Proof. repeat split; vm_compute; reflexivity. Qed.

Example binary64_samples :
  Date_parse (RequestsReceived.created_at oldRequest) = num 1704067200000
  /\ Date_parse (RequestsReceived.created_at recentRequest) = num 1706605200000
  /\ binary64_isOverdue clock1 1704067200000
     = RequestsReceived.isOverdue Date_parse clock1
         (RequestsReceived.created_at oldRequest)
  /\ binary64_isOverdue clock2 1706605200000
     = RequestsReceived.isOverdue Date_parse clock2
         (RequestsReceived.created_at recentRequest).
Proof. repeat split; vm_compute; reflexivity. Qed.

Example binary64_boundary :
  binary64_isOverdue (1704067200000 + 604800000) 1704067200000 = false
  /\ binary64_isOverdue (1704067200000 + 604800001) 1704067200000 = true
  /\ binary64_isOverdue 8640000000000000 (-8640000000000000) = true
  /\ binary64_isOverdue (-8640000000000000) 8640000000000000 = false.
Proof. repeat split; vm_compute; reflexivity. Qed.

(** Mounting the inbox with one old and one recent request, rendered a
    minute later. *)
Example mounted_view :
  RequestsReceived.render Date_parse clock2
    (exec (RequestsReceived.handle Date_parse
             (RequestsReceived.Mounted clock1
                (Resolved [oldRequest; recentRequest])))
          RequestsReceived.initial)
  = RequestsReceived.Rendered {|
      RequestsReceived.error_banner := None;
      RequestsReceived.overdue_modal := Some [oldRequest];
      RequestsReceived.bulk_actions := Some {|
        RequestsReceived.select_all_checked := false;
        RequestsReceived.selected_count := 0;
        RequestsReceived.buttons_disabled := true |};
      RequestsReceived.rows := [
        {| RequestsReceived.row_request := oldRequest;
           RequestsReceived.row_overdue := true;
           RequestsReceived.row_checked := false |};
        {| RequestsReceived.row_request := recentRequest;
           RequestsReceived.row_overdue := false;
           RequestsReceived.row_checked := false |} ]
    |}.
Proof. vm_compute. reflexivity. Qed.

Example bulk_accept_effects :
  effects (RequestsReceived.handleBulkProcess Date_parse ACCEPT true
             (Resolved {| RequestsReceived.successful_length := 2;
                          RequestsReceived.failed_length := 0 |})
             clock1 (Resolved [])) (selecting [1; 2])
  = [Confirm "Are you sure you want to accept 2 request(s)?";
     Http (api_post "/requests/bulk-process" (BulkProcessBody [1; 2] ACCEPT));
     Alert ("Successfully processed: 2" ++ RequestsReceived.newline
            ++ "Failed: 0");
     Http (api_get "/requests/received")].
Proof. vm_compute. reflexivity. Qed.

Example isOverdue_boundary :
  RequestsReceived.isOverdue Engine.Date_parse
    (1704067200000 + 604800000) "2024-01-01T00:00:00.000Z" = false
  /\ RequestsReceived.isOverdue Engine.Date_parse
       (1704067200000 + 604800001) "2024-01-01T00:00:00.000Z" = true.
Proof. split; vm_compute; reflexivity. Qed.

(** The two overdue tests on the request of 2024-01-01, seen on
    2024-02-01. *)
Example overdue_tests_on_old_request :
  RequestsReceived.olderThanSevenDays Date_parse clock1 oldRequest = true
  /\ RequestsReceived.isOverdue Date_parse clock1
       (RequestsReceived.created_at oldRequest) = true.
Proof. split; vm_compute; reflexivity. Qed.

(** C1 at the sample inputs: the first fetch finds one request of two
    overdue, makes it the alert list and raises the alert. *)
Lemma C1_overdue_alert_after_fetch_witness :
  let payload := [oldRequest; recentRequest] in
  let st' := exec (RequestsReceived.fetchRequests Date_parse clock1
                     (Resolved payload)) RequestsReceived.initial in
  filter (RequestsReceived.olderThanSevenDays Date_parse clock1) payload <> []
  /\ RequestsReceived.overdueRequests st'
     = filter (RequestsReceived.olderThanSevenDays Date_parse clock1) payload
  /\ RequestsReceived.showOverdueAlert st' = true.
Proof.
  intros payload st'.
  assert (Hne : filter (RequestsReceived.olderThanSevenDays Date_parse clock1)
                  payload <> []).
  { vm_compute. discriminate. }
  split; [exact Hne|].
  exact (proj1 (proj2 (C1_overdue_alert_after_fetch Date_parse clock1 payload
                         RequestsReceived.initial))
           Hne).
Defined.

(** C1 as written fails: a second fetch that finds nothing overdue leaves
    the alert of the first one showing, with a request that is no longer in
    the list. *)
Lemma C1_alert_outlives_overdue_set :
  let st1 := exec (RequestsReceived.fetchRequests Date_parse clock1
                     (Resolved [oldRequest])) RequestsReceived.initial in
  let st2 := exec (RequestsReceived.fetchRequests Date_parse clock2
                     (Resolved [recentRequest])) st1 in
  let overdue :=
    filter (RequestsReceived.olderThanSevenDays Date_parse clock2)
           [recentRequest] in
  overdue = []
  /\ RequestsReceived.showOverdueAlert st2 = true
  /\ RequestsReceived.overdueRequests st2 = [oldRequest]
  /\ ~ (RequestsReceived.showOverdueAlert st2 = true <-> overdue <> []).
Proof.
  assert (E : filter (RequestsReceived.olderThanSevenDays Date_parse
                        clock2) [recentRequest] = []) by (vm_compute; reflexivity).
  cbv zeta. rewrite E.
  split; [reflexivity|]. split; [vm_compute; reflexivity|].
  split; [vm_compute; reflexivity|].
  intros [H _]. apply H; [vm_compute|]; reflexivity.
Qed.

(** C2 as written fails: mounting the dashboard calls [/company/list]. *)
Lemma C2_company_list_is_called :
  In (api_get "/company/list")
     (http_calls (effects (Dashboard.fetchData allFine) Dashboard.initial))
  /\ claimedPath "/company/list" = false
  /\ ~ Forall (fun c => claimedPath (url c) = true)
         (http_calls (effects (Dashboard.fetchData allFine) Dashboard.initial)).
Proof.
  split; [cbn; tauto|]. split; [reflexivity|].
  intro H. rewrite Forall_forall in H.
  specialize (H (api_get "/company/list")). cbn in H.
  assert (F : false = true) by (apply H; tauto). discriminate.
Qed.

(** C4 at the sample inputs. *)
Lemma C4_error_state_and_banner_witness :
  reports (rejectedWith (Some "requests unavailable")) "Failed to fetch data"
    (Dashboard.error (exec (Dashboard.fetchData twoDown) Dashboard.initial))
  /\ reports networkError "Failed to process requests"
       (RequestsReceived.error
          (exec (RequestsReceived.handleBulkProcess Date_parse ACCEPT
                   true (Rejected networkError) clock1 (Resolved []))
                (selecting [1])))
  /\ reports networkError "Failed to update request"
       (Dashboard.error
          (exec (Dashboard.handleUpdateRequest parseDigits parseDigits
                   (Rejected networkError) allFine)
                (editing (Some madeRequest))))
  /\ Dashboard.error (exec (Dashboard.fetchData allFine) Dashboard.initial)
     = "".
Proof.
  destruct C4_error_state_and_banner as [HR HD].
  destruct (HR Date_parse) as (_ & _ & _ & Hbulk & _).
  destruct (HD parseDigits parseDigits) as (Hok & Hfirst & _ & Hupd & _).
  split; [|split; [|split]].
  - apply (Hfirst twoDown Dashboard.initial [] 1%nat [0; 2]%nat).
    + reflexivity.
    + intros j [].
    + reflexivity.
  - apply Hbulk. discriminate.
  - apply (Hupd networkError allFine (editing (Some madeRequest)) madeRequest).
    reflexivity.
  - apply Hok. unfold allResolved. cbn. repeat eexists.
Defined.

(** C4 as written fails, three ways: an empty [message] gives way to the
    fallback; of two failing calls of [fetchData] only the first to reject
    is reported; and while a refetch is under way the component renders
    "Loading..." without the banner, whatever the error state. *)
Lemma C4_message_not_always_shown :
  (let err := rejectedWith (Some "") in
   let st' := exec (RequestsReceived.fetchRequests Date_parse clock1
                      (Rejected err)) RequestsReceived.initial in
   exists m, response_data_message err = Some m
             /\ RequestsReceived.error st' = "Failed to fetch requests"
             /\ RequestsReceived.error st' <> m)
  /\ (let st' := exec (Dashboard.fetchData twoDown) Dashboard.initial in
      Dashboard.balanceRes twoDown
        = Rejected (rejectedWith (Some "balance unavailable"))
      /\ Dashboard.error st' = "requests unavailable"
      /\ Dashboard.error st' <> "balance unavailable")
  /\ (let st1 := exec (Dashboard.fetchData balanceDown) Dashboard.initial in
      let st2 := exec Dashboard.fetchData_begin st1 in
      Dashboard.error st2 = "Failed to fetch data"
      /\ Dashboard.error st2 <> ""
      /\ Dashboard.render st2 = Dashboard.Loading
      /\ dashboardBanner (Dashboard.render st2) = None).
Proof.
  split; [|split].
  - exists "". split; [reflexivity|]. split; [reflexivity|].
    cbn. discriminate.
  - split; [reflexivity|]. split; [reflexivity|]. cbn. discriminate.
  - split; [reflexivity|]. split; [cbn; discriminate|].
    split; reflexivity.
Qed.

(** C5 at the sample inputs: two selected requests, accepted in bulk. *)
Lemma C5_process_requests_post_witness :
  let m := RequestsReceived.handleBulkProcess Date_parse ACCEPT true
             (Resolved {| RequestsReceived.successful_length := 2;
                          RequestsReceived.failed_length := 0 |})
             clock1 (Resolved []) in
  RequestsReceived.selectedIds (selecting [1; 2]) <> []
  /\ posts (http_calls (effects m (selecting [1; 2])))
     = [api_post "/requests/bulk-process" (BulkProcessBody [1; 2] ACCEPT)]
  /\ RequestsReceived.selectedIds (exec m (selecting [1; 2])) = [].
Proof.
  intro m.
  assert (Hsel : RequestsReceived.selectedIds (selecting [1; 2]) <> [])
    by discriminate.
  destruct (proj2 (C5_process_requests_post Date_parse) ACCEPT
              (Resolved {| RequestsReceived.successful_length := 2;
                           RequestsReceived.failed_length := 0 |})
              clock1 (Resolved []) (selecting [1; 2]) Hsel)
    as (Hposts & _ & Hok).
  split; [exact Hsel|]. split; [exact Hposts|].
  exact (proj1 (Hok _ eq_refl)).
Defined.

(** C6 at the sample inputs: all three calls succeed on mount; and with the
    balance call down, the error is set and the data stays. *)
Lemma C6_fetchData_all_or_nothing_witness :
  Dashboard.balance (exec (Dashboard.fetchData allFine) Dashboard.initial)
    = Some someBalance
  /\ ~ allResolved balanceDown
  /\ exists err,
       In err (rejections balanceDown)
       /\ Dashboard.requests
            (exec (Dashboard.fetchData balanceDown) Dashboard.initial) = [].
Proof.
  split; [|split].
  - rewrite (proj1 (proj2 (C6_fetchData_all_or_nothing allFine
                             Dashboard.initial))
               someBalance [madeRequest]
               [{| Dashboard.Company.id := 3;
                   Dashboard.Company.name := "Birch" |}]
               eq_refl eq_refl eq_refl).
    reflexivity.
  - intros (b & r & c & H & _). discriminate.
  - destruct (proj1 (proj2 (proj2 (C6_fetchData_all_or_nothing balanceDown
                                     Dashboard.initial))))
      as (err & Hin & Hst).
    + intros (b & r & c & H & _). discriminate.
    + exists err. split; [exact Hin|]. rewrite Hst. reflexivity.
Defined.

(** C6 as written fails: when the first fetch fails, the loading flag
    changes as well as the error. *)
Lemma C6_loading_changes_too :
  let st' := exec (Dashboard.fetchData balanceDown) Dashboard.initial in
  Dashboard.loading Dashboard.initial = true
  /\ Dashboard.loading st' = false
  /\ ~ onlyErrorChanged Dashboard.initial st'.
Proof.
  cbv zeta. split; [reflexivity|]. split; [reflexivity|].
  intros (_ & _ & _ & H & _). discriminate.
Qed.

(** C7 at the sample inputs: the form filled in while request 12 is being
    edited. *)
Lemma C7_submit_sends_parsed_form_witness :
  let m := Dashboard.handleUpdateRequest parseDigits parseDigits
             (Resolved tt) allFine in
  Dashboard.editingRequest (editing (Some madeRequest)) = Some madeRequest
  /\ http_calls (effects m (editing (Some madeRequest)))
     = [api_put "/requests/12"
          (RequestBody (num 3) "SELL" (num 20) (num 10) "surplus");
        api_get "/company/balance"; api_get "/requests/made";
        api_get "/company/list"]
  /\ Dashboard.formData (exec m (editing (Some madeRequest)))
     = Dashboard.emptyForm
  /\ effects (Dashboard.handleUpdateRequest parseDigits parseDigits
                (Resolved tt) allFine) (editing None) = [].
Proof.
  intro m.
  destruct (C7_submit_sends_parsed_form parseDigits parseDigits)
    as (_ & Hupd & Hnone).
  destruct (Hupd (Resolved tt) allFine (editing (Some madeRequest))
              madeRequest eq_refl) as (Hcalls & Hok).
  split; [reflexivity|]. split; [|split].
  - subst m. rewrite Hcalls. reflexivity.
  - exact (proj1 (proj2 (Hok tt eq_refl))).
  - exact (proj1 (Hnone (Resolved tt) allFine (editing None) eq_refl)).
Defined.

(** C8 at the sample inputs: unticking request 1 of the selection [1; 2],
    and ticking request 1 when only request 2 is selected. *)
Lemma C8_checkbox_toggles_membership_witness :
  RequestsReceived.selectedIds
    (exec (RequestsReceived.handleCheckboxChange 1) (selecting [1; 2])) = [2]
  /\ RequestsReceived.selectedIds
       (exec (RequestsReceived.handleCheckboxChange 1) (selecting [2]))
     = [2; 1]
  /\ NoDup
       (RequestsReceived.selectedIds
          (exec (RequestsReceived.handleCheckboxChange 1)
             (exec (RequestsReceived.handleCheckboxChange 1)
                (selecting [1; 2])))).
Proof.
  pose proof (C8_checkbox_toggles_membership 1 (selecting [1; 2])) as H12.
  pose proof (C8_checkbox_toggles_membership 1 (selecting [2])) as H2.
  cbv zeta in H12, H2.
  destruct H12 as (_ & _ & Hin & _ & _ & _ & Hnd).
  destruct H2 as (_ & _ & _ & Hout & _).
  split; [|split].
  - rewrite (proj1 (Hin (or_introl eq_refl))). reflexivity.
  - rewrite Hout; [reflexivity|]. cbn. intros [H|[]]. discriminate.
  - apply Hnd. cbn. repeat constructor; cbn; intuition discriminate.
Defined.

(** C10 at the sample inputs: nothing selected, and a declined
    confirmation. *)
Lemma C10_bulk_process_frame_witness :
  exec (RequestsReceived.handleBulkProcess Date_parse REJECT true
          (Rejected networkError) clock1 (Resolved [])) (selecting [])
  = selecting []
  /\ http_calls
       (effects (RequestsReceived.handleBulkProcess Date_parse REJECT
                   false (Rejected networkError) clock1 (Resolved []))
                (selecting [1; 2])) = [].
Proof.
  split.
  - exact (proj2 (proj1 (C10_bulk_process_frame Date_parse REJECT true
                           (Rejected networkError) clock1 (Resolved [])
                           (selecting [])) eq_refl)).
  - exact (proj1 (proj2 (C10_bulk_process_frame Date_parse REJECT false
                           (Rejected networkError) clock1 (Resolved [])
                           (selecting [1; 2])) eq_refl)).
Defined.

End Checks.

(** ** The requests-received view: more of its behaviour *)

Module Inbox.
Import JS JSFacts Http RequestsReceived Properties Sessions OverdueFacts.
Import RequestsReceivedOverdue RequestsReceivedHandlers.
Local Open Scope string_scope.

Section WithParser.

Variable Date_parse : string -> Number.

(** X1. A fetch of the received requests never touches the selection and
    always ends the loading screen; when it fails it changes nothing but the
    error (and the loading flag): the list, the alert and its list stay. *)
Theorem X1_fetch_frame
    (clock renderClock : Z) (res : Result (list ReceivedRequest))
    (err : AxiosError) (st : State) :
  let st' := exec (fetchRequests Date_parse clock res) st in
  selectedIds st' = selectedIds st
  /\ loading st' = false
  /\ render Date_parse renderClock st' <> Loading
  /\ exec (fetchRequests Date_parse clock (Rejected err)) st
     = exec (setLoading false)
         (exec (setError (or_else (response_data_message err)
                            "Failed to fetch requests")) st).
Proof.
  destruct st as [rq ld er sel sh od].
  destruct res as [payload|e]; run; unfold render;
    try destruct (Nat.ltb 0 _); cbn; repeat split; discriminate.
Qed.

(** X2. A failed accept or reject, and a failed bulk action, change nothing
    but the error: the list and the selection stay as they were. *)
Theorem X2_failed_processing_frame
    (id : Z) (action : Action) (err : AxiosError)
    (clock : Z) (res : Result (list ReceivedRequest)) (st : State) :
  exec (handleProcessRequest Date_parse id action (Rejected err) clock res) st
  = exec (setError (or_else (response_data_message err)
                      (match action with
                       | ACCEPT => "Failed to accept request"
                       | REJECT => "Failed to reject request"
                       end))) st
  /\ (selectedIds st <> [] ->
      exec (handleBulkProcess Date_parse action true (Rejected err) clock res)
           st
      = exec (setError (or_else (response_data_message err)
                          "Failed to process requests")) st).
Proof.
  destruct st as [rq ld er sel sh od]. split.
  - destruct action; reflexivity.
  - intro Hsel. destruct sel as [|i sel]; [exfalso; apply Hsel|]; reflexivity.
Qed.

(** X3. The overdue alert is raised by a fetch only: an event makes the
    alert show that was not showing only if it stores a fetched list with a
    request older than seven days; and closing the alert hides the modal
    and keeps its list. *)
Theorem X3_alert_raised_by_fetch_only (ev : Event) (st : State) :
  let st' := exec (handle Date_parse ev) st in
  (showOverdueAlert st = false -> showOverdueAlert st' = true ->
   exists clock payload,
     fetchedBy ev st = Some (clock, payload)
     /\ filter (olderThanSevenDays Date_parse clock) payload <> []
     /\ overdueRequests st'
        = filter (olderThanSevenDays Date_parse clock) payload)
  /\ (ev = OverdueAlertClosed ->
      showOverdueAlert st' = false
      /\ overdueRequests st' = overdueRequests st
      /\ forall renderClock,
           renderedModal (render Date_parse renderClock st') = None).
Proof.
  destruct st as [rq ld er sel sh od]. split.
  - cbn [showOverdueAlert]. intros -> Hshow.
    destruct ev as [clock res | id action posted clock res
                   | action confirmed posted clock res | id | | | | ].
    + destruct res as [payload|e]; run; [|discriminate].
      exists clock, payload. split; [reflexivity|].
      destruct (filter _ payload) eqn:F; [discriminate|].
      split; [discriminate | reflexivity].
    + destruct posted as [u|e]; [|run; discriminate].
      destruct res as [payload|e]; run; [|discriminate].
      exists clock, payload. split; [reflexivity|].
      destruct (filter _ payload) eqn:F; [discriminate|].
      split; [discriminate | reflexivity].
    + destruct sel as [|i sel]; [run; discriminate|].
      destruct confirmed; [|run; discriminate].
      destruct posted as [u|e]; [|run; discriminate].
      destruct res as [payload|e]; run; [|discriminate].
      exists clock, payload. split; [reflexivity|].
      destruct (filter _ payload) eqn:F; [discriminate|].
      split; [discriminate | reflexivity].
    + run. discriminate.
    + run. destruct (Nat.eqb _ _); discriminate.
    + run. discriminate.
    + run. discriminate.
    + run. discriminate.
  - intros ->. run. repeat split. intro renderClock.
    unfold render. cbn. destruct ld; reflexivity.
Qed.

Lemma includes_toggle (x y : Z) (l : list Z) :
  includes (toggle x l) y =
  if Z.eqb y x then negb (includes l y) else includes l y.
Proof.
  pose proof (In_toggle x y l) as H.
  destruct (Z.eqb_spec y x) as [->|Hne].
  - destruct (includes l x) eqn:E; cbn [negb].
    + apply includes_true_iff in E. apply includes_false_iff.
      intro Hin. apply H in Hin. destruct Hin as [[_ Hn]|[Hn _]]; auto.
    + apply includes_false_iff in E. apply includes_true_iff, H. now left.
  - destruct (includes l y) eqn:E.
    + apply includes_true_iff in E. apply includes_true_iff, H. now right.
    + apply includes_false_iff in E. apply includes_false_iff.
      intro Hin. apply H in Hin. destruct Hin as [[Hy _]|[_ Hy]]; auto.
Qed.

Lemma filter_out_absent (x : Z) (l : list Z) :
  ~ In x l -> filter (fun i => negb (Z.eqb i x)) l = l.
Proof.
  induction l as [|y l IH]; [reflexivity|]. intro Hn. cbn [filter].
  destruct (Z.eqb_spec y x) as [->|Hne]; [elim Hn; now left|].
  cbn [negb]. f_equal. apply IH. intro H. apply Hn. now right.
Qed.

Lemma length_filter_out (x : Z) (l : list Z) :
  NoDup l -> In x l ->
  S (List.length (filter (fun i => negb (Z.eqb i x)) l)) = List.length l.
Proof.
  induction 1 as [|y l Hy Hnd IH]; [intros []|].
  intros [->|Hin]; cbn [filter].
  - rewrite Z.eqb_refl. cbn [negb List.length]. f_equal.
    f_equal. now apply filter_out_absent.
  - destruct (Z.eqb_spec y x) as [->|Hne]; [contradiction|].
    cbn [negb List.length]. f_equal. now apply IH.
Qed.

(** X4. Ticking the checkbox of a request flips the checkbox of every row
    with that request's id and of no other row, and touches nothing else of
    the table; on a selection without duplicates the count of selected
    requests goes up by one when the request was not selected and down by
    one when it was. *)
Theorem X4_checkbox_in_the_table (renderClock id : Z) (st : State) :
  let st' := exec (handleCheckboxChange id) st in
  renderedRows (render Date_parse renderClock st')
  = map (fun row =>
           {| row_request := row_request row;
              row_overdue := row_overdue row;
              row_checked :=
                if Z.eqb (RequestsReceived.id (row_request row)) id
                then negb (row_checked row) else row_checked row |})
        (renderedRows (render Date_parse renderClock st))
  /\ (~ In id (selectedIds st) ->
      List.length (selectedIds st') = S (List.length (selectedIds st)))
  /\ (NoDup (selectedIds st) -> In id (selectedIds st) ->
      S (List.length (selectedIds st')) = List.length (selectedIds st)).
Proof.
  destruct st as [rq ld er sel sh od]. run. split; [|split].
  - unfold render. cbn [loading requests selectedIds].
    destruct ld; [reflexivity|]. cbn [renderedRows rows].
    rewrite map_map. apply map_ext. intro r. cbn [row_request row_overdue
      row_checked]. now rewrite includes_toggle.
  - intro Hn. unfold toggle. apply includes_false_iff in Hn. rewrite Hn.
    rewrite length_app. cbn. lia.
  - intros Hnd Hin. unfold toggle. pose proof Hin as Hi.
    apply includes_true_iff in Hi. rewrite Hi. now apply length_filter_out.
Qed.

(** X5. The select-all checkbox alternates: a click that selects all the
    displayed requests leaves every row and the select-all box checked, and
    the next click clears the selection; two clicks in a row give the whole
    list if the selection was as long as the list, and nothing otherwise. *)
Theorem X5_select_all_twice (renderClock : Z) (st : State) :
  let st1 := exec handleSelectAll st in
  let st2 := exec handleSelectAll st1 in
  selectedIds st2 =
    (if Nat.eqb (List.length (selectedIds st)) (List.length (requests st))
     then map RequestsReceived.id (requests st) else [])
  /\ (Nat.eqb (List.length (selectedIds st)) (List.length (requests st))
      = false ->
      Forall (fun row => row_checked row = true)
             (renderedRows (render Date_parse renderClock st1))
      /\ forall actions,
           renderedBulkActions (render Date_parse renderClock st1)
           = Some actions ->
           select_all_checked actions = true
           /\ selected_count actions = List.length (requests st)).
Proof.
  destruct st as [rq ld er sel sh od]. run.
  destruct (Nat.eqb (List.length sel) (List.length rq)) eqn:E.
  - split; [|discriminate]. cbn [List.length].
    destruct rq as [|r rq]; reflexivity.
  - split.
    + now rewrite length_map, Nat.eqb_refl.
    + intros _. unfold render. cbn [loading requests selectedIds].
      destruct ld.
      * split; [constructor | discriminate].
      * cbn [renderedRows renderedBulkActions rows bulk_actions]. split.
        -- apply Forall_forall. intros row Hin.
           apply in_map_iff in Hin. destruct Hin as (r & <- & Hr).
           cbn [row_checked]. apply includes_true_iff.
           now apply in_map.
        -- intros actions. rewrite length_map.
           destruct (Nat.ltb 0 (List.length rq)); [|discriminate].
           intros [= <-]. cbn. now rewrite Nat.eqb_refl.
Qed.

(** X6. The bulk buttons and [handleBulkProcess] guard on the same test:
    the buttons are disabled exactly when nothing is selected, so a click
    on an enabled button is never answered with the "Please select" alert.
    The handler asks for confirmation before it posts, and reports the
    counts of the answer before it refetches. *)
Theorem X6_bulk_dialogs
    (action : Action) (confirmed : bool) (posted : Result BulkResults)
    (clock renderClock : Z) (res : Result (list ReceivedRequest))
    (st : State) :
  let m := handleBulkProcess Date_parse action confirmed posted clock res in
  effects m st =
    match selectedIds st with
    | [] => [Alert "Please select at least one request"]
    | _ :: _ =>
        Confirm ("Are you sure you want to "
                 ++ toLowerCase (Action_string action) ++ " "
                 ++ Number_toString
                      (Z.of_nat (List.length (selectedIds st)))
                 ++ " request(s)?")
        :: (if confirmed
            then Http (api_post "/requests/bulk-process"
                         (BulkProcessBody (selectedIds st) action))
                 :: match posted with
                    | Resolved payload =>
                        [Alert ("Successfully processed: "
                                ++ Number_toString
                                     (Z.of_nat (successful_length payload))
                                ++ newline ++ "Failed: "
                                ++ Number_toString
                                     (Z.of_nat (failed_length payload)));
                         Http (api_get "/requests/received")]
                    | Rejected _ => []
                    end
            else [])
    end
  /\ (forall actions,
        renderedBulkActions (render Date_parse renderClock st) = Some actions ->
        (buttons_disabled actions = true <-> selectedIds st = [])
        /\ (buttons_disabled actions = false ->
            ~ In (Alert "Please select at least one request")
                 (effects m st))).
Proof.
  destruct st as [rq ld er sel sh od]. split.
  - destruct sel as [|i sel]; [reflexivity|].
    destruct confirmed; [|reflexivity].
    destruct posted as [p|e]; [|reflexivity].
    destruct res as [payload|e]; run;
      try destruct (Nat.ltb 0 _); reflexivity.
  - intros actions. unfold render. cbn [loading requests selectedIds].
    destruct ld; [discriminate|]. cbn [renderedBulkActions bulk_actions].
    destruct (Nat.ltb 0 (List.length rq)); [|discriminate].
    intros [= <-]. cbn [buttons_disabled]. split.
    + destruct sel; cbn; split; congruence.
    + destruct sel as [|i sel]; [discriminate|]. intros _.
      destruct confirmed; [|run; intros [H|[]]; discriminate].
      destruct posted as [p|e].
      * destruct res as [payload|e]; run;
          try destruct (Nat.ltb 0 _); cbn;
          intros [H|[H|[H|[H|[]]]]]; discriminate.
      * run. intros [H|[H|[]]]; discriminate.
Qed.

(** X7. Events of the inbox that do not go to the backend issue no call
    and leave the list, the error, the loading flag and the alert list as
    they were; leaving the page and logging out change no state at all. *)
Theorem X7_local_events_frame (ev : Event) (st : State) :
  localEvent ev = true ->
  let st' := exec (handle Date_parse ev) st in
  http_calls (effects (handle Date_parse ev) st) = []
  /\ requests st' = requests st
  /\ loading st' = loading st
  /\ error st' = error st
  /\ overdueRequests st' = overdueRequests st
  /\ (ev = BackToDashboardClicked \/ ev = LogoutClicked -> st' = st).
Proof.
  destruct st as [rq ld er sel sh od].
  destruct ev; try discriminate; intros _; run;
    try destruct (Nat.eqb _ _); repeat split;
    try (intros [H|H]; discriminate); reflexivity.
Qed.

Lemma step_distinct (ev : Event) (st : State) :
  distinctIds ev ->
  NoDup (map RequestsReceived.id (requests st)) -> NoDup (selectedIds st) ->
  NoDup (map RequestsReceived.id (requests (exec (handle Date_parse ev) st)))
  /\ NoDup (selectedIds (exec (handle Date_parse ev) st)).
Proof.
  destruct st as [rq ld er sel sh od]. unfold distinctIds.
  intros Hev Hrq Hsel. cbn [requests selectedIds] in Hrq, Hsel.
  assert (Hnil : NoDup (@nil Z)) by constructor.
  destruct ev as [clock res | id action posted clock res
                 | action confirmed posted clock res | id | | | | ].
  - destruct res as [payload|e]; run; try destruct (Nat.ltb 0 _);
      cbn; split; auto.
  - destruct posted as [u|e]; [|run; split; auto].
    destruct res as [payload|e]; run; try destruct (Nat.ltb 0 _);
      cbn; split; auto.
  - destruct sel as [|i sel]; [run; split; auto|].
    destruct confirmed; [|run; split; auto].
    destruct posted as [u|e]; [|run; split; auto].
    destruct res as [payload|e]; run; try destruct (Nat.ltb 0 _);
      cbn; split; auto.
  - run. split; [assumption | now apply NoDup_toggle].
  - run. destruct (Nat.eqb _ _); split; auto.
  - run. split; auto.
  - run. split; auto.
  - run. split; auto.
Qed.

(** X8. As long as every list the backend answers with has distinct ids,
    the selection never holds an id twice, whatever the sequence of events
    since the component was mounted. *)
Theorem X8_selection_without_duplicates (evs : list Event) :
  Forall distinctIds evs ->
  let st := receivedAfter Date_parse evs initial in
  NoDup (selectedIds st) /\ NoDup (map RequestsReceived.id (requests st)).
Proof.
  intro Hevs. cbv zeta.
  assert (G : forall st0,
             NoDup (map RequestsReceived.id (requests st0)) ->
             NoDup (selectedIds st0) ->
             NoDup (selectedIds (receivedAfter Date_parse evs st0))
             /\ NoDup (map RequestsReceived.id
                         (requests (receivedAfter Date_parse evs st0)))).
  { induction Hevs as [|ev evs Hev _ IH]; intros st0 H1 H2.
    - now split.
    - cbn [receivedAfter fold_left].
      destruct (step_distinct ev st0 Hev H1 H2) as [H1' H2'].
      apply IH; assumption. }
  apply G; constructor.
Qed.

(** X9. The row highlight over time: a request whose [created_at] does not
    parse is never overdue; a request that is exactly seven days old, or
    younger, is not overdue; and a request that is overdue at one clock
    reading is overdue at every later one that is a time value. *)
Theorem X9_overdue_over_time (clock later : Z) (dateString : string) :
  (Date_parse dateString = NaN ->
   isOverdue Date_parse clock dateString = false)
  /\ (forall t, new_Date_string Date_parse dateString = Some t ->
      clock <= t + sevenDays ->
      isOverdue Date_parse clock dateString = false)
  /\ (clock <= later -> Z.abs later <= maxTime ->
      isOverdue Date_parse clock dateString = true ->
      isOverdue Date_parse later dateString = true).
Proof.
  pose proof (isOverdue_iff Date_parse clock dateString) as Hc.
  pose proof (isOverdue_iff Date_parse later dateString) as Hl.
  unfold moreThanSevenDaysBetween, new_Date_now in Hc, Hl.
  rewrite TimeClip_num in Hc, Hl.
  split; [|split].
  - intro Hnan. destruct (isOverdue Date_parse clock dateString);
      [|reflexivity].
    destruct (proj1 Hc eq_refl) as (t & n & Ht & _).
    unfold new_Date_string in Ht. rewrite Hnan in Ht. discriminate.
  - intros t Ht Hle. destruct (isOverdue Date_parse clock dateString);
      [|reflexivity].
    destruct (proj1 Hc eq_refl) as (t' & n & Ht' & Hn & Hlt).
    rewrite Ht in Ht'. injection Ht' as <-.
    destruct (Z.leb (Z.abs clock) maxTime); [|discriminate].
    injection Hn as <-. lia.
  - intros Hle Hrange Hov. apply Hl.
    destruct (proj1 Hc Hov) as (t & n & Ht & Hn & Hlt).
    destruct (Z.leb (Z.abs clock) maxTime); [|discriminate].
    injection Hn as <-.
    exists t, later. split; [exact Ht|]. split; [|lia].
    apply Z.leb_le in Hrange. now rewrite Hrange.
Qed.

End WithParser.

End Inbox.

(** ** The dashboard: more of its behaviour *)

Module Board.
Import JS Http Dashboard Properties Sessions DashboardHandlers.
Local Open Scope string_scope.

Section WithEngine.

Variable parseInt : string -> Number.
Variable parseFloat : string -> Number.
Variable toString : Number -> string.

Lemma exec_handleDeleteRequest id confirmed deleted a st :
  exec (handleDeleteRequest id confirmed deleted a) st =
  if confirmed
  then match deleted with
       | Resolved _ => exec (fetchData a) st
       | Rejected err =>
           exec (setError (or_else (response_data_message err)
                             "Failed to delete request")) st
       end
  else st.
Proof.
  destruct st as [bl rq cs ld er sf ed fd].
  destruct confirmed; [|reflexivity].
  destruct deleted as [u|err]; [|reflexivity].
  run_fetch a; reflexivity.
Qed.

Lemma Promise_all_resolved (a : Answers) b r c :
  Promise_all (settled a) (balanceRes a) (requestsRes a) (companiesRes a)
  = Resolved (b, r, c) ->
  allResolved a.
Proof.
  intro P. pose proof (Promise_all_spec a) as H. rewrite P in H.
  destruct H as (Hb & Hr & Hc). now exists b, r, c.
Qed.

Lemma Promise_all_rejected (a : Answers) err :
  Promise_all (settled a) (balanceRes a) (requestsRes a) (companiesRes a)
  = Rejected err ->
  ~ allResolved a.
Proof.
  intro P. pose proof (Promise_all_spec a) as H. rewrite P in H.
  exact (proj2 H).
Qed.

(** X10. [handleDeleteRequest] asks before it deletes: a declined
    confirmation leaves no call and no change; an accepted one sends one
    DELETE of [/requests/{id}], then refetches if it succeeded.  The handler
    never touches the form, so a request that is being edited stays in the
    form when it is deleted; and it never removes the row itself: the table
    only changes when the DELETE and all three calls of the refetch
    succeed. *)
Theorem X10_delete_asks_then_refetches
    (id : Z) (confirmed : bool) (deleted : Result unit) (a : Answers)
    (st : State) :
  let m := handleDeleteRequest id confirmed deleted a in
  let st' := exec m st in
  effects m st =
    Confirm "Are you sure you want to delete this request?"
    :: (if confirmed
        then Http (api_delete ("/requests/" ++ Number_toString id))
             :: match deleted with
                | Resolved _ => effects (fetchData a) st
                | Rejected _ => []
                end
        else [])
  /\ (confirmed = false -> st' = st)
  /\ showRequestForm st' = showRequestForm st
  /\ editingRequest st' = editingRequest st
  /\ formData st' = formData st
  /\ (requests st' <> requests st ->
      confirmed = true /\ (exists u, deleted = Resolved u) /\ allResolved a).
Proof.
  cbv zeta. split.
  - destruct st as [bl rq cs ld er sf ed fd].
    destruct confirmed; [|reflexivity].
    destruct deleted as [u|err]; [|reflexivity].
    run_fetch a; reflexivity.
  - rewrite exec_handleDeleteRequest.
    destruct confirmed.
    2:{ split; [reflexivity|]. do 3 (split; [reflexivity|]).
        intro H. now elim H. }
    split; [discriminate|].
    destruct deleted as [u|err].
    + rewrite exec_fetchData.
      destruct (Promise_all _ _ _ _) as [[[b r] c]|err] eqn:P;
        cbn [showRequestForm editingRequest formData requests];
        do 3 (split; [reflexivity|]).
      * intros _. split; [reflexivity|]. split; [now exists u|].
        exact (Promise_all_resolved a b r c P).
      * intro H. now elim H.
    + destruct st as [bl rq cs ld er sf ed fd]. run.
      do 3 (split; [reflexivity|]). intro H. now elim H.
Qed.

Lemma step_editing_open (ev : Event) (st : State) :
  (editingRequest st <> None -> showRequestForm st = true) ->
  editingRequest (exec (handle parseInt parseFloat toString ev) st) <> None ->
  showRequestForm (exec (handle parseInt parseFloat toString ev) st) = true.
Proof.
  destruct st as [bl rq cs ld er sf ed fd].
  cbn [editingRequest showRequestForm]. intros Hinv.
  assert (Hnone : @None Request <> None -> false = true)
    by (intro H; now elim H).
  destruct ev as [a | answered a | id confirmed deleted a | request
                 | | | field value | | ].
  - run_fetch a; exact Hinv.
  - destruct ed as [e|]; destruct answered as [u|err];
      try (run_fetch a; first [exact Hinv | exact Hnone]);
      run; first [exact Hinv | exact Hnone].
  - destruct confirmed; [|run; exact Hinv].
    destruct deleted as [u|err]; [run_fetch a; exact Hinv | run; exact Hinv].
  - run. reflexivity.
  - run. intro H. now elim H.
  - run. exact Hnone.
  - run. exact Hinv.
  - run. exact Hinv.
  - run. exact Hinv.
Qed.

(** X11. Whatever the events since the component was mounted, a request is
    being edited only while the form is open; so once the page is rendered
    the form is there, titled "Edit Request" with the button "Update
    Request", and the header button reads "Cancel". *)
Theorem X11_editing_keeps_the_form_open (evs : list Event) :
  let st := dashboardAfter parseInt parseFloat toString evs initial in
  forall editing, editingRequest st = Some editing ->
    showRequestForm st = true
    /\ (loading st = false ->
        exists p form,
          render st = Rendered p
          /\ toggle_label p = "Cancel"
          /\ request_form p = Some form
          /\ form_title form = "Edit Request"
          /\ submit_label form = "Update Request").
Proof.
  cbv zeta.
  assert (G : forall st0,
            (editingRequest st0 <> None -> showRequestForm st0 = true) ->
            editingRequest
              (dashboardAfter parseInt parseFloat toString evs st0) <> None ->
            showRequestForm
              (dashboardAfter parseInt parseFloat toString evs st0) = true).
  { induction evs as [|ev evs IH]; intros st0 H0; [exact H0|].
    cbn [dashboardAfter fold_left]. apply IH.
    now apply step_editing_open. }
  intros editing He.
  assert (Hs : showRequestForm
                 (dashboardAfter parseInt parseFloat toString evs initial)
               = true).
  { apply G; [intro H; now elim H | rewrite He; discriminate]. }
  split; [exact Hs|]. intro Hl. unfold render. rewrite Hl, Hs, He.
  do 2 eexists. repeat split.
Qed.

Lemma effects_handleSubmit answered a st :
  effects (handleSubmit parseInt parseFloat answered a) st =
  match editingRequest st with
  | Some _ => effects (handleUpdateRequest parseInt parseFloat answered a) st
  | None => effects (handleCreateRequest parseInt parseFloat answered a) st
  end.
Proof.
  destruct st as [bl rq cs ld er sf ed fd]. destruct ed; reflexivity.
Qed.

(** X12. The submit button does what it says: whenever the form is on the
    page, submitting it sends a call first, and that call is the PUT of
    [/requests/{id}] of the edited request when the button reads "Update
    Request", and the POST of [/requests] when it reads "Create Request";
    its body is parsed from the fields the form shows.  The early return of
    [handleUpdateRequest] is never taken from the form. *)
Theorem X12_submit_follows_the_form
    (answered : Result unit) (a : Answers) (st : State) (form : FormView) :
  renderedForm (render st) = Some form ->
  exists call,
    firstCall (effects (handleSubmit parseInt parseFloat answered a) st)
    = Some call
    /\ body call = requestBody parseInt parseFloat (form_fields form)
    /\ (submit_label form = "Update Request" <-> method call = PUT)
    /\ (submit_label form = "Create Request" <-> method call = POST)
    /\ url call = match editingRequest st with
                  | Some editing => "/requests/" ++ Number_toString (id editing)
                  | None => "/requests"
                  end.
Proof.
  unfold firstCall. rewrite effects_handleSubmit.
  destruct st as [bl rq cs ld er sf ed fd]. unfold render.
  cbn [loading showRequestForm editingRequest formData companies].
  destruct ld; [discriminate|]. destruct sf; [|discriminate].
  cbn [renderedForm request_form]. intros [= <-].
  destruct ed as [e|].
  - rewrite calls_handleUpdateRequest. cbn [editingRequest formData hd_error].
    eexists. split; [reflexivity|]. cbn.
    repeat split; intros; first [reflexivity | discriminate].
  - rewrite calls_handleCreateRequest. cbn [formData hd_error].
    eexists. split; [reflexivity|]. cbn.
    repeat split; intros; first [reflexivity | discriminate].
Qed.

Lemma or_else_string (s : string) : or_else (Some s) "" = s.
Proof. destruct s; reflexivity. Qed.

(** X13. Edit, then submit without a change: if the engine's parsers read
    back what its [toString] prints of the request's numbers, the PUT goes
    to the edited request's own path and carries the request's own
    recipient, type, price, quantity and reason. *)
Theorem X13_unchanged_edit_resubmits_the_request
    (request : Request) (answered : Result unit) (a : Answers) (st : State) :
  parseInt (Number_toString (recipientId request))
  = num (recipientId request) ->
  parseFloat (toString (price request)) = price request ->
  parseFloat (toString (quantity request)) = quantity request ->
  firstCall
    (effects (handleSubmit parseInt parseFloat answered a)
             (exec (handleEditClick toString request) st))
  = Some (api_put ("/requests/" ++ Number_toString (id request))
            (RequestBody (num (recipientId request)) (type request)
                         (price request) (quantity request)
                         (reason request))).
Proof.
  intros Hr Hp Hq. unfold firstCall.
  rewrite effects_handleSubmit.
  destruct st as [bl rq cs ld er sf ed fd].
  change (editingRequest (exec (handleEditClick toString request) _))
    with (Some request). cbv iota.
  rewrite calls_handleUpdateRequest.
  change (editingRequest (exec (handleEditClick toString request) _))
    with (Some request). cbv iota. cbn [hd_error].
  unfold requestBody. run. cbn [FormData.recipientId FormData.type
    FormData.price FormData.quantity FormData.reason].
  now rewrite Hr, Hp, Hq, or_else_string.
Qed.

(** X14. The header button: it issues nothing, flips whether the form is
    shown and always clears the form and the request being edited.  While
    the form is open it does what the form's own Cancel button does, also
    when a request is being edited; while the form is closed it opens an
    empty form for a new request; pressed twice it leaves the form shown or
    hidden as it was. *)
Theorem X14_toggle_button (request : Request) (st : State) :
  let st' := exec toggleForm st in
  effects toggleForm st = []
  /\ showRequestForm st' = negb (showRequestForm st)
  /\ editingRequest st' = None
  /\ formData st' = emptyForm
  /\ showRequestForm (exec toggleForm st') = showRequestForm st
  /\ exec toggleForm (exec (handleEditClick toString request) st)
     = exec resetForm st
  /\ (showRequestForm st = true -> st' = exec resetForm st)
  /\ (showRequestForm st = false -> loading st = false ->
      renderedForm (render st')
      = Some {| form_title := "Create New Request";
                form_fields := emptyForm;
                company_options := companies st;
                submit_label := "Create Request" |}).
Proof.
  destruct st as [bl rq cs ld er sf ed fd]. run.
  split; [reflexivity|]. split; [reflexivity|]. split; [reflexivity|].
  split; [reflexivity|]. split; [now destruct sf|]. split; [reflexivity|].
  split.
  - now intros ->.
  - intros -> ->. reflexivity.
Qed.

(** X15. Typing in a control of the form sets that field and no other, and
    changes nothing else of the state; a second value for the same field
    replaces the first, changes of two different fields can be made in
    either order, and the form on the page shows the new value. *)
Theorem X15_field_change
    (field other : Field) (value later : string) (st : State) :
  let st' := exec (handleFieldChange field value) st in
  fieldOf (formData st') field = value
  /\ (other <> field ->
      fieldOf (formData st') other = fieldOf (formData st) other)
  /\ exec (handleFieldChange field later) st'
     = exec (handleFieldChange field later) st
  /\ (other <> field ->
      exec (handleFieldChange other later) st'
      = exec (handleFieldChange field value)
             (exec (handleFieldChange other later) st))
  /\ effects (handleFieldChange field value) st = []
  /\ (forall form, renderedForm (render st) = Some form ->
      renderedForm (render st')
      = Some {| form_title := form_title form;
                form_fields := withField (form_fields form) field value;
                company_options := company_options form;
                submit_label := submit_label form |}).
Proof.
  destruct st as [bl rq cs ld er sf ed fd]. destruct fd as [f1 f2 f3 f4 f5].
  run. split; [now destruct field|]. split.
  { intro Hne. destruct field, other; try reflexivity; now elim Hne. }
  split; [now destruct field|]. split.
  { intro Hne. destruct field, other; try reflexivity; now elim Hne. }
  split; [reflexivity|].
  intro form. unfold render. cbn [loading showRequestForm].
  destruct ld; [discriminate|]. destruct sf; [|discriminate].
  cbn [renderedForm request_form]. intros [= <-]. reflexivity.
Qed.

(** X16. Events of the form and of the header issue no call to the backend
    and leave the balance, the table, the company list, the loading flag
    and the error as they were: an error banner is not cleared by closing
    or reopening the form. *)
Theorem X16_form_events_frame (ev : Event) (st : State) :
  formEvent ev = true ->
  let st' := exec (handle parseInt parseFloat toString ev) st in
  http_calls (effects (handle parseInt parseFloat toString ev) st) = []
  /\ balance st' = balance st
  /\ requests st' = requests st
  /\ companies st' = companies st
  /\ loading st' = loading st
  /\ error st' = error st
  /\ dashboardBanner (render st') = dashboardBanner (render st).
Proof.
  destruct st as [bl rq cs ld er sf ed fd].
  destruct ev; try discriminate; intros _; run;
    repeat (split; [reflexivity|]); unfold render;
    cbn [loading error]; destruct ld; reflexivity.
Qed.

(** X17. What a submit leaves behind.  A rejected POST or PUT changes only
    the error: the form stays open with what was typed, and nothing is
    refetched.  An accepted one leaves the state that the form's Cancel
    button followed by a fetch would leave, for creating and for updating
    alike. *)
Theorem X17_submit_outcomes
    (err : AxiosError) (u : unit) (a : Answers) (st : State) :
  let create := handleCreateRequest parseInt parseFloat in
  let update := handleUpdateRequest parseInt parseFloat in
  exec (create (Rejected err) a) st
  = exec (setError (or_else (response_data_message err)
                      "Failed to create request")) st
  /\ http_calls (effects (create (Rejected err) a) st)
     = [api_post "/requests" (requestBody parseInt parseFloat (formData st))]
  /\ exec (create (Resolved u) a) st = exec (fetchData a) (exec resetForm st)
  /\ (editingRequest st <> None ->
      exec (update (Rejected err) a) st
      = exec (setError (or_else (response_data_message err)
                          "Failed to update request")) st
      /\ exec (update (Resolved u) a) st
         = exec (fetchData a) (exec resetForm st)).
Proof.
  destruct st as [bl rq cs ld er sf ed fd]. cbv zeta.
  split; [reflexivity|]. split; [reflexivity|]. split.
  - run_fetch a; reflexivity.
  - destruct ed as [e|]; [intros _ | intro H; now elim H].
    split; [reflexivity|]. run_fetch a; reflexivity.
Qed.

(** X18. The page around a fetch: while the three calls are out the whole
    page is replaced by the loading text; once they are answered the page
    is rendered again.  If all three resolved it shows no error banner; if
    one rejected it shows a banner, over the balance and the table it
    showed before. *)
Theorem X18_page_around_a_fetch (a : Answers) (st : State) :
  render (exec fetchData_begin st) = Loading
  /\ exists p,
       render (exec (fetchData a) st) = Rendered p
       /\ (error_banner p = None <-> allResolved a)
       /\ (~ allResolved a ->
           balance_shown p = balance st /\ table p = requests st)
       /\ (request_form p <> None <-> showRequestForm st = true).
Proof.
  split; [destruct st; reflexivity|].
  assert (Hform : forall (sf : bool) (x : FormView),
            (if sf then Some x else None) <> None <-> sf = true).
  { intros [|] x; split; try discriminate; try reflexivity.
    intro H. now elim H. }
  rewrite exec_fetchData.
  destruct (Promise_all _ _ _ _) as [[[b r] c]|err] eqn:P.
  - apply Promise_all_resolved in P.
    eexists. split; [reflexivity|]. cbn.
    split; [split; [intros _; exact P | reflexivity]|].
    split; [intro H; now elim H | apply Hform].
  - apply Promise_all_rejected in P.
    eexists. split; [reflexivity|]. cbn.
    split; [|split; [intros _; split; reflexivity | apply Hform]].
    pose proof (or_else_nonempty (response_data_message err)
                  "Failed to fetch data") as Hne.
    destruct (or_else _ _); [elim Hne; [discriminate | reflexivity]|].
    cbn. split; [discriminate | intro H; now elim P].
Qed.

End WithEngine.

End Board.

(** ** The further properties at the sample inputs *)

Module MoreChecks.
Import JS Http Engine Properties Samples Sessions.
Import Inbox Board.
Local Open Scope string_scope.

Definition mounted : RequestsReceived.Event :=
  RequestsReceived.Mounted clock1 (Resolved [oldRequest; recentRequest]).

(** X1: a fetch that fails while request 1 is selected. *)
Lemma X1_fetch_frame_witness :
  let st' := exec (RequestsReceived.fetchRequests Engine.Date_parse clock1
                     (Rejected networkError)) (selecting [1]) in
  RequestsReceived.selectedIds st' = [1]
  /\ RequestsReceived.render Engine.Date_parse clock2 st'
     <> RequestsReceived.Loading.
Proof.
  intro st'.
  pose proof (X1_fetch_frame Engine.Date_parse clock1 clock2
                (Rejected networkError) networkError (selecting [1])) as H.
  cbv zeta in H. destruct H as (Hsel & _ & Hr & _).
  split; [exact Hsel | exact Hr].
Defined.

(** X2: a bulk POST that fails keeps the selection. *)
Lemma X2_failed_processing_frame_witness :
  RequestsReceived.selectedIds (selecting [1; 2]) <> []
  /\ RequestsReceived.selectedIds
       (exec (RequestsReceived.handleBulkProcess Engine.Date_parse ACCEPT true
                (Rejected networkError) clock1 (Resolved []))
             (selecting [1; 2])) = [1; 2].
Proof.
  assert (Hsel : RequestsReceived.selectedIds (selecting [1; 2]) <> [])
    by discriminate.
  split; [exact Hsel|].
  rewrite (proj2 (X2_failed_processing_frame Engine.Date_parse 1 ACCEPT
                    networkError clock1 (Resolved []) (selecting [1; 2]))
             Hsel).
  reflexivity.
Defined.

(** X3: the fetch on mount raises the alert for the one old request. *)
Lemma X3_alert_raised_by_fetch_only_witness :
  RequestsReceived.showOverdueAlert
    (exec (RequestsReceived.handle Engine.Date_parse mounted)
          RequestsReceived.initial) = true
  /\ exists clock payload,
       fetchedBy mounted RequestsReceived.initial = Some (clock, payload)
       /\ RequestsReceived.overdueRequests
            (exec (RequestsReceived.handle Engine.Date_parse mounted)
                  RequestsReceived.initial)
          = filter (RequestsReceived.olderThanSevenDays Engine.Date_parse clock)
                   payload.
Proof.
  assert (Hshow : RequestsReceived.showOverdueAlert
                    (exec (RequestsReceived.handle Engine.Date_parse mounted)
                          RequestsReceived.initial) = true).
  { vm_compute. reflexivity. }
  split; [exact Hshow|].
  destruct (proj1 (X3_alert_raised_by_fetch_only Engine.Date_parse mounted
                     RequestsReceived.initial) eq_refl Hshow)
    as (clock & payload & Hf & _ & Ho).
  exists clock, payload. split; [exact Hf | exact Ho].
Defined.

(** X4: unticking request 1 of the selection [1; 2]. *)
Lemma X4_checkbox_in_the_table_witness :
  S (List.length
       (RequestsReceived.selectedIds
          (exec (RequestsReceived.handleCheckboxChange 1) (selecting [1; 2]))))
  = 2%nat.
Proof.
  apply (proj2 (proj2 (X4_checkbox_in_the_table Engine.Date_parse clock1 1
                         (selecting [1; 2])))).
  - cbn. repeat constructor; cbn; intuition discriminate.
  - left. reflexivity.
Defined.

(** X5: select all with one of two requests selected. *)
Lemma X5_select_all_twice_witness :
  Forall (fun row => RequestsReceived.row_checked row = true)
    (renderedRows
       (RequestsReceived.render Engine.Date_parse clock1
          (exec RequestsReceived.handleSelectAll (selecting [1])))).
Proof.
  exact (proj1 (proj2 (X5_select_all_twice Engine.Date_parse clock1
                         (selecting [1])) eq_refl)).
Defined.

(** X6: the bulk button is enabled with request 1 selected. *)
Lemma X6_bulk_dialogs_witness :
  ~ In (Alert "Please select at least one request")
       (effects (RequestsReceived.handleBulkProcess Engine.Date_parse ACCEPT
                   true (Rejected networkError) clock1 (Resolved []))
                (selecting [1])).
Proof.
  destruct (proj2 (X6_bulk_dialogs Engine.Date_parse ACCEPT true
                     (Rejected networkError) clock1 clock2 (Resolved [])
                     (selecting [1]))
              {| RequestsReceived.select_all_checked := false;
                 RequestsReceived.selected_count := 1;
                 RequestsReceived.buttons_disabled := false |}
              eq_refl) as [_ H].
  exact (H eq_refl).
Defined.

(** X7: the select-all checkbox is a local event. *)
Lemma X7_local_events_frame_witness :
  RequestsReceived.requests
    (exec (RequestsReceived.handle Engine.Date_parse
             RequestsReceived.SelectAllChanged) (selecting [1]))
  = [oldRequest; recentRequest].
Proof.
  destruct (X7_local_events_frame Engine.Date_parse
              RequestsReceived.SelectAllChanged (selecting [1]) eq_refl)
    as (_ & Hrq & _).
  exact Hrq.
Defined.

(** X8: mount, select all, untick request 1. *)
Lemma X8_selection_without_duplicates_witness :
  NoDup (RequestsReceived.selectedIds
           (receivedAfter Engine.Date_parse
              [mounted; RequestsReceived.SelectAllChanged;
               RequestsReceived.CheckboxChanged 1]
              RequestsReceived.initial)).
Proof.
  assert (H : Forall distinctIds
                [mounted; RequestsReceived.SelectAllChanged;
                 RequestsReceived.CheckboxChanged 1]).
  { repeat constructor; intros payload Ha; try discriminate.
    injection Ha as <-. cbn.
    repeat constructor; cbn; intuition discriminate. }
  exact (proj1 (X8_selection_without_duplicates Engine.Date_parse _ H)).
Defined.

(** X9: the old request is still overdue a minute later. *)
Lemma X9_overdue_over_time_witness :
  RequestsReceived.isOverdue Engine.Date_parse clock1
    "2024-01-01T00:00:00.000Z" = true
  /\ RequestsReceived.isOverdue Engine.Date_parse clock2
       "2024-01-01T00:00:00.000Z" = true.
Proof.
  assert (H1 : RequestsReceived.isOverdue Engine.Date_parse clock1
                 "2024-01-01T00:00:00.000Z" = true).
  { vm_compute. reflexivity. }
  split; [exact H1|].
  apply (proj2 (proj2 (X9_overdue_over_time Engine.Date_parse clock1 clock2
                         "2024-01-01T00:00:00.000Z"))).
  - vm_compute. discriminate.
  - vm_compute. discriminate.
  - exact H1.
Defined.

(** X10: a deletion right after mounting, with everything answered. *)
Lemma X10_delete_asks_then_refetches_witness :
  Dashboard.requests
    (exec (Dashboard.handleDeleteRequest 12 true (Resolved tt) allFine)
          Dashboard.initial) <> []
  /\ allResolved allFine.
Proof.
  assert (Hne : Dashboard.requests
                  (exec (Dashboard.handleDeleteRequest 12 true (Resolved tt)
                           allFine) Dashboard.initial)
                <> Dashboard.requests Dashboard.initial).
  { vm_compute. discriminate. }
  split; [exact Hne|].
  pose proof (X10_delete_asks_then_refetches 12 true (Resolved tt) allFine
                Dashboard.initial) as H.
  cbv zeta in H. destruct H as (_ & _ & _ & _ & _ & H).
  exact (proj2 (proj2 (H Hne))).
Defined.

(** X11: mount, then Edit on request 12. *)
Lemma X11_editing_keeps_the_form_open_witness :
  Dashboard.showRequestForm
    (dashboardAfter parseDigits parseDigits Engine.toString
       [Dashboard.Mounted allFine; Dashboard.EditClicked madeRequest]
       Dashboard.initial) = true.
Proof.
  exact (proj1 (X11_editing_keeps_the_form_open parseDigits parseDigits
                  Engine.toString
                  [Dashboard.Mounted allFine; Dashboard.EditClicked madeRequest]
                  madeRequest eq_refl)).
Defined.

(** X12: the form open on request 12. *)
Lemma X12_submit_follows_the_form_witness :
  exists call,
    firstCall (effects (Dashboard.handleSubmit parseDigits parseDigits
                          (Resolved tt) allFine)
                       (editing (Some madeRequest))) = Some call
    /\ method call = PUT.
Proof.
  destruct (X12_submit_follows_the_form parseDigits parseDigits (Resolved tt)
              allFine (editing (Some madeRequest))
              {| Dashboard.form_title := "Edit Request";
                 Dashboard.form_fields := filledForm;
                 Dashboard.company_options := [];
                 Dashboard.submit_label := "Update Request" |}
              eq_refl) as (call & Hc & _ & Hupd & _).
  exists call. split; [exact Hc|]. apply Hupd. reflexivity.
Defined.

(** X13: Edit on request 12, then submit. *)
Lemma X13_unchanged_edit_resubmits_the_request_witness :
  firstCall
    (effects (Dashboard.handleSubmit parseDigits parseDigits (Resolved tt)
                allFine)
             (exec (Dashboard.handleEditClick Engine.toString madeRequest)
                   (editing None)))
  = Some (api_put "/requests/12"
            (RequestBody (num 3) "BUY" (num 20) (num 10) "")).
Proof.
  exact (X13_unchanged_edit_resubmits_the_request parseDigits parseDigits
           Engine.toString madeRequest (Resolved tt) allFine (editing None)
           eq_refl eq_refl eq_refl).
Defined.

(** X14: the header button while request 12 is being edited. *)
Lemma X14_toggle_button_witness :
  exec Dashboard.toggleForm (editing (Some madeRequest))
  = exec Dashboard.resetForm (editing (Some madeRequest)).
Proof.
  pose proof (X14_toggle_button Engine.toString madeRequest
                (editing (Some madeRequest))) as H.
  cbv zeta in H. destruct H as (_ & _ & _ & _ & _ & _ & H & _).
  exact (H eq_refl).
Defined.

(** X15: a new price leaves the quantity. *)
Lemma X15_field_change_witness :
  fieldOf (Dashboard.formData
             (exec (Dashboard.handleFieldChange Dashboard.PriceField "21")
                   (editing None)))
          Dashboard.QuantityField = "10".
Proof.
  pose proof (X15_field_change Dashboard.PriceField Dashboard.QuantityField
                "21" "22" (editing None)) as H.
  cbv zeta in H. destruct H as (_ & H & _).
  rewrite H; [reflexivity | discriminate].
Defined.

(** X16: the header button leaves the table. *)
Lemma X16_form_events_frame_witness :
  Dashboard.requests
    (exec (Dashboard.handle parseDigits parseDigits Engine.toString
             Dashboard.FormToggled) (editing None))
  = [madeRequest].
Proof.
  destruct (X16_form_events_frame parseDigits parseDigits Engine.toString
              Dashboard.FormToggled (editing None) eq_refl)
    as (_ & _ & Hrq & _).
  exact Hrq.
Defined.

(** X17: a PUT that fails while request 12 is being edited. *)
Lemma X17_submit_outcomes_witness :
  Dashboard.formData
    (exec (Dashboard.handleUpdateRequest parseDigits parseDigits
             (Rejected networkError) allFine) (editing (Some madeRequest)))
  = filledForm.
Proof.
  pose proof (X17_submit_outcomes parseDigits parseDigits networkError tt
                allFine (editing (Some madeRequest))) as H.
  cbv zeta in H. destruct H as (_ & _ & _ & H).
  destruct H as [Hrej _]; [discriminate|].
  rewrite Hrej. reflexivity.
Defined.

(** X18: a refetch with the balance call down. *)
Lemma X18_page_around_a_fetch_witness :
  exists p,
    Dashboard.render (exec (Dashboard.fetchData balanceDown) (editing None))
    = Dashboard.Rendered p
    /\ Dashboard.balance_shown p = Some someBalance
    /\ Dashboard.table p = [madeRequest].
Proof.
  destruct (proj2 (X18_page_around_a_fetch balanceDown (editing None)))
    as (p & Hp & _ & Hstale & _).
  exists p. split; [exact Hp|]. apply Hstale.
  intros (b & r & c & H & _). discriminate.
Defined.

End MoreChecks.
